(** * Screening and scoring engine of [stock.py]

    A shallow embedding of [screen_stocks_for_opportunities] and of the
    helpers it calls, followed by the properties the specification states
    about them.

    Modelling choices, fixed once for the whole development:
    - Python numbers are exact rationals ([Q]): no rounding error, no
      [inf], no [nan].  Division is the one partial operation: [truediv]
      raises [ZeroDivisionError] on a zero divisor, as Python's own [float]
      and [int] do (a [numpy] scalar would give [inf] or [nan] and a
      warning instead).  [round(x, 2)] rounds the exact value, ties to
      even.  The two worked examples of the specification are recomputed
      on binary64 doubles in [Binary64].
    - [yfinance], the Alpha Vantage endpoint and their payloads are outside
      the repository.  They are gathered in a record [World] of fallible
      functions; every call may return data or fail with an exception of
      the provider.
    - A [datetime] is a day number in [Z]; [timedelta(days=n)] is [n].
    - The body of the [for] loop of [screen_stocks_for_opportunities] can
      end in three ways (fall through to [append], [continue], [raise]);
      the type [flow] has one constructor for each.
    - [logger] calls are kept as a list of entries, in emission order.

    The rest of the script ([setup_environment], the earnings calendar,
    the competitors, the entry price and [main]) is embedded in [Script];
    the properties the code shows beyond the specification come last. *)

From Stdlib Require Import ZArith QArith Qabs Qround Qreduction PrimFloat.
From Stdlib Require Import List String Ascii Bool Lia Lqa DecimalString.
From Stdlib Require Import Sorted Permutation.
Import ListNotations.

Local Open Scope Z_scope.
Local Open Scope Q_scope.

(** Decimal literals such as [0.3] denote the nearest double in
    [float_scope], as they do in Python. *)
Set Warnings "-inexact-float".

(* ------------------------------------------------------------------ *)
(** ** Exceptions, fallible calls, and the control flow of the loop body *)

Module Py.

Inductive exn : Type :=
| ZeroDivisionError
| IndexError
| FetchError (msg : string).

(** What a provider hands back: data, or an exception of its own.  The
    engine sees the latter as [FetchError]; [ZeroDivisionError] and
    [IndexError] are left to the engine's own expressions. *)
Inductive fetched (A : Type) : Type :=
| Fetched (a : A)
| Failed (msg : string).

Inductive result (A : Type) : Type :=
| Ok (a : A)
| Err (e : exn).

Arguments Ok {A} a.
Arguments Err {A} e.
Arguments Fetched {A} a.
Arguments Failed {A} msg.

Definition fetch {A : Type} (c : fetched A) : result A :=
  match c with
  | Fetched a => Ok a
  | Failed msg => Err (FetchError msg)
  end.

Definition rbind {A B : Type} (c : result A) (k : A -> result B) : result B :=
  match c with
  | Ok a => k a
  | Err e => Err e
  end.

(** The gates of the loop body, named after what each [continue] tests. *)
Inductive Gate : Type :=
| G1_symbol
| G2_company_name
| G3_market_cap
| G4_target_price
| G5_earnings_dates
| G6_post_moves
| G7_current_price
| G8_price_series.

Definition gate_index (g : Gate) : nat :=
  match g with
  | G1_symbol => 1
  | G2_company_name => 2
  | G3_market_cap => 3
  | G4_target_price => 4
  | G5_earnings_dates => 5
  | G6_post_moves => 6
  | G7_current_price => 7
  | G8_price_series => 8
  end.

Inductive flow (A : Type) : Type :=
| Done (a : A)
| Continue (g : Gate)
| Raise (e : exn).

Arguments Done {A} a.
Arguments Continue {A} g.
Arguments Raise {A} e.

Definition fbind {A B : Type} (c : flow A) (k : A -> flow B) : flow B :=
  match c with
  | Done a => k a
  | Continue g => Continue g
  | Raise e => Raise e
  end.

(** A call that may raise, made from inside the loop body. *)
Definition call {A : Type} (c : result A) : flow A :=
  match c with
  | Ok a => Done a
  | Err e => Raise e
  end.

(** [if not cond: continue] *)
Definition gate (g : Gate) (cond : bool) : flow unit :=
  if cond then Done tt else Continue g.

End Py.
Import Py.

Declare Scope result_scope.
Delimit Scope result_scope with result.
Declare Scope flow_scope.
Delimit Scope flow_scope with flow.

Notation "x <- c ;; k" := (rbind c (fun x => k))
  (at level 61, c at next level, right associativity) : result_scope.
Notation "x <- c ;; k" := (fbind c (fun x => k))
  (at level 61, c at next level, right associativity) : flow_scope.
Notation "c ;;; k" := (fbind c (fun _ => k))
  (at level 61, right associativity) : flow_scope.

(* ------------------------------------------------------------------ *)
(** ** Numbers *)

(** Python truthiness of the values the gates test. *)
Definition truthy_str (s : string) : bool :=
  match s with
  | EmptyString => false
  | String _ _ => true
  end.

Definition truthy_int (n : Z) : bool := negb (n =? 0)%Z.

Definition truthy_num (x : Q) : bool := negb (Qeq_bool x 0).

(** [a / b] *)
Definition truediv (a b : Q) : result Q :=
  if Qeq_bool b 0 then Err ZeroDivisionError else Ok (a / b).

(** [((last - first) / first) * 100], the expression of lines 168, 193,
    197, 208 and 212. *)
Definition pct_change (first last : Q) : result Q :=
  (q <- truediv (last - first) first ;;
   Ok (q * 100))%result.

(** [sum(xs)]: a left fold starting from the integer [0]. *)
Definition sum (xs : list Q) : Q := fold_left Qplus xs 0.

(** [sum(1 for m in xs if m > 0)] *)
Definition count_positive (xs : list Q) : Z :=
  Z.of_nat (List.length (filter (fun m => negb (Qle_bool m 0)) xs)).

Definition len {A : Type} (xs : list A) : Z := Z.of_nat (List.length xs).

(** [round(x)] to the nearest integer, ties to the even neighbour. *)
Definition round_half_even (x : Q) : Z :=
  let f := Qfloor x in
  match Qcompare (x - inject_Z f) (1 # 2) with
  | Lt => f
  | Gt => (f + 1)%Z
  | Eq => if Z.even f then f else (f + 1)%Z
  end.

(** [round(x, 2)] *)
Definition round2 (x : Q) : Q :=
  Qred (inject_Z (round_half_even (x * 100)) / 100).

(* ------------------------------------------------------------------ *)
(** ** [re.match(r'^[A-Z]{1,5}$', ticker)] *)

Definition is_upper (c : ascii) : bool :=
  let n := nat_of_ascii c in
  (65 <=? n)%nat && (n <=? 90)%nat.

(** The greedy run [[A-Z]{..k}] at the head of [s], and what follows it. *)
Fixpoint take_upper (k : nat) (s : string) : nat * string :=
  match k, s with
  | S k', String c t =>
      if is_upper c
      then let (n, rest) := take_upper k' t in (S n, rest)
      else (O, s)
  | _, _ => (O, s)
  end.

(** Python's [$] (without [re.MULTILINE]) matches at the end of the string
    and also just before a newline that is the last character. *)
Definition at_dollar (s : string) : bool :=
  match s with
  | EmptyString => true
  | String c EmptyString => Ascii.eqb c "010"%char
  | String _ (String _ _) => false
  end.

Definition re_match_symbol (ticker : string) : bool :=
  let (n, rest) := take_upper 5 ticker in
  (1 <=? n)%nat && at_dollar rest.

(* ------------------------------------------------------------------ *)
(** ** Data model *)

(** One row of the earnings calendar: [{"symbol": ..., "reportDate": ...}]. *)
Record Candidate : Type := {
  symbol : string;
  reportDate : string
}.

(** The keys of [stock.info] the screen reads; [None] is an absent key
    (or a stored [None]), which is what [info.get] returns for it. *)
Record Info : Type := {
  shortName : option string;
  marketCap : option Z;
  targetMeanPrice : option Q;
  currentPrice : option Q
}.

(** A row of the frame [stock.history(...)] returns: its index (a day) and
    its ['Close'] column. *)
Record PricePoint : Type := {
  pdate : Z;
  Close : Q
}.

Definition PriceSeries : Type := list PricePoint.

(** The two ways the screen calls [history]. *)
Inductive HistoryQuery : Type :=
| Period30d
| Range (start end_ : Z).

(** The dictionary appended to [screened_stocks]. *)
Record ScreeningResult : Type := {
  ticker : string;
  company_name : string;
  earnings_date : string;
  move_score : Q;
  avg_move : Q;
  analyst_upside : Q;
  stock_runup : Q;
  win_rate : Q;
  avg_pre_earnings_runup : Q
}.

(** Everything fetched from outside.  [earnings_json] is the decoded
    Alpha Vantage [EARNINGS] payload of a ticker: [Failed] when the request
    or the decoding raises, [None] when the key ['quarterlyEarnings'] is
    missing, else the reports in payload order, each with its
    ['reportedDate'] parsed ([None] when [strptime] or the lookup raises). *)
Record World : Type := {
  ticker_info : string -> fetched Info;
  ticker_history : string -> HistoryQuery -> fetched PriceSeries;
  earnings_json : string -> fetched (option (list (option Z)))
}.

Inductive LogEntry : Type :=
| InfoScreening (n : Z)
| InfoQualified (ticker company_name : string) (move_score : Q)
| WarningCouldNotAnalyze (ticker : string) (e : exn).

(* ------------------------------------------------------------------ *)
(** ** Frames and series *)

Definition empty {A : Type} (xs : list A) : bool :=
  match xs with
  | [] => true
  | _ :: _ => false
  end.

(** [hist['Close'].iloc[i]], negative [i] counting from the end. *)
Definition iloc (hist : PriceSeries) (i : Z) : result Q :=
  let n := len hist in
  let j := if (i <? 0)%Z then (n + i)%Z else i in
  if ((0 <=? j) && (j <? n))%Z
  then match nth_error hist (Z.to_nat j) with
       | Some p => Ok (Close p)
       | None => Err IndexError
       end
  else Err IndexError.

(* ------------------------------------------------------------------ *)
(** ** [get_historical_earnings_from_api] *)

(** The list comprehension over the first eight reports: one date that
    fails to parse raises, and the whole call then returns [[]]. *)
Fixpoint parse_reports (reports : list (option Z)) : option (list Z) :=
  match reports with
  | [] => Some []
  | None :: _ => None
  | Some d :: rest =>
      match parse_reports rest with
      | Some ds => Some (d :: ds)
      | None => None
      end
  end.

Definition get_historical_earnings_from_api (w : World) (ticker : string)
  : list Z :=
  match earnings_json w ticker with
  | Fetched (Some reports) =>
      match parse_reports (firstn 8 reports) with
      | Some dates => dates
      | None => []
      end
  | Fetched None => []
  | Failed _ => []
  end.

(* ------------------------------------------------------------------ *)
(** ** [screen_stocks_for_opportunities] *)

(** Lines 166-168: the benchmark run-up, computed before the loop and
    outside any [try]. *)
Definition spy_runup (w : World) : result Q :=
  (spy_hist <- fetch (ticker_history w "SPY" Period30d) ;;
   last <- iloc spy_hist (-1) ;;
   first <- iloc spy_hist 0 ;;
   pct_change first last)%result.

(** Lines 192-193: the post-earnings move of one window, if any. *)
Definition post_move (hist_post : PriceSeries) : result (option Q) :=
  if (2 <=? len hist_post)%Z
  then (second <- iloc hist_post 1 ;;
        first <- iloc hist_post 0 ;;
        m <- pct_change first second ;;
        Ok (Some m))%result
  else Ok None.

(** Lines 196-197: the pre-earnings run-up of one window, if any. *)
Definition pre_runup (hist_pre : PriceSeries) : result (option Q) :=
  if negb (empty hist_pre)
  then (last <- iloc hist_pre (-1) ;;
        first <- iloc hist_pre 0 ;;
        r <- pct_change first last ;;
        Ok (Some r))%result
  else Ok None.

Definition append_if {A : Type} (xs : list A) (x : option A) : list A :=
  match x with
  | Some a => xs ++ [a]
  | None => xs
  end.

(** Lines 188-197: the loop over the historical earnings dates, threading
    the two lists it appends to. *)
Fixpoint history_moves (w : World) (ticker : string) (earnings_dates : list Z)
  (post_moves pre_runups : list Q) : result (list Q * list Q) :=
  match earnings_dates with
  | [] => Ok (post_moves, pre_runups)
  | date :: rest =>
      (hist_post <- fetch (ticker_history w ticker
                             (Range (date - 1) (date + 2))) ;;
       m <- post_move hist_post ;;
       hist_pre <- fetch (ticker_history w ticker (Range (date - 30) date)) ;;
       r <- pre_runup hist_pre ;;
       history_moves w ticker rest
         (append_if post_moves m) (append_if pre_runups r))%result
  end.

(** The local variables of the loop body that are alive at line 215. *)
Record Features : Type := {
  f_company_name : string;
  f_post_moves : list Q;
  f_pre_runups : list Q;
  f_avg_abs_move : Q;
  f_win_rate : Q;
  f_avg_pre_earnings_runup : Q;
  f_analyst_upside : Q;
  f_current_runup : Q;
  f_relative_runup : Q
}.

(** [x = info.get(key)] followed by [if not x: continue]. *)
Definition present {A : Type} (g : Gate) (truthy : A -> bool) (x : option A)
  : flow A :=
  match x with
  | Some a => if truthy a then Done a else Continue g
  | None => Continue g
  end.

Definition large_cap (market_cap : Z) : bool :=
  truthy_int market_cap && negb (market_cap <? 10000000000)%Z.

(** [sum(pre_runups) / len(pre_runups) if pre_runups else 0] *)
Definition mean_or_zero (pre_runups : list Q) : result Q :=
  if negb (empty pre_runups)
  then truediv (sum pre_runups) (inject_Z (len pre_runups))
  else Ok 0.

(** Lines 173-213: the gates and the features, in source order. *)
Definition extract_features (w : World) (spy_runup : Q) (ticker : string)
  : flow Features :=
  (gate G1_symbol (re_match_symbol ticker) ;;;
   info <- call (fetch (ticker_info w ticker)) ;;
   company_name <- present G2_company_name truthy_str (shortName info) ;;
   market_cap <- present G3_market_cap large_cap (marketCap info) ;;
   target_price <- present G4_target_price truthy_num (targetMeanPrice info) ;;
   let earnings_dates := get_historical_earnings_from_api w ticker in
   gate G5_earnings_dates (negb (empty earnings_dates)) ;;;
   moves <- call (history_moves w ticker earnings_dates [] []) ;;
   let post_moves := fst moves in
   let pre_runups := snd moves in
   gate G6_post_moves (negb (empty post_moves)) ;;;
   avg_abs_move <- call (truediv (sum (map Qabs post_moves))
                                 (inject_Z (len post_moves))) ;;
   let up_moves := count_positive post_moves in
   up_share <- call (truediv (inject_Z up_moves)
                             (inject_Z (len post_moves))) ;;
   let win_rate := up_share * 100 in
   avg_pre_earnings_runup <- call (mean_or_zero pre_runups) ;;
   current_price <- present G7_current_price truthy_num (currentPrice info) ;;
   analyst_upside <- call (pct_change current_price target_price) ;;
   stock_hist <- call (fetch (ticker_history w ticker Period30d)) ;;
   gate G8_price_series (negb (empty stock_hist)) ;;;
   last <- call (iloc stock_hist (-1)) ;;
   first <- call (iloc stock_hist 0) ;;
   current_runup <- call (pct_change first last) ;;
   let relative_runup := Qabs (current_runup - spy_runup) in
   Done {| f_company_name := company_name;
           f_post_moves := post_moves;
           f_pre_runups := pre_runups;
           f_avg_abs_move := avg_abs_move;
           f_win_rate := win_rate;
           f_avg_pre_earnings_runup := avg_pre_earnings_runup;
           f_analyst_upside := analyst_upside;
           f_current_runup := current_runup;
           f_relative_runup := relative_runup |})%flow.

(** Line 215. *)
Definition score (avg_abs_move analyst_upside relative_runup : Q) : Q :=
  (avg_abs_move * 0.5) + (analyst_upside * 0.3) + (relative_runup * 0.2).

Definition features_score (f : Features) : Q :=
  score (f_avg_abs_move f) (f_analyst_upside f) (f_relative_runup f).

(** Lines 217-223. *)
Definition make_result (ticker_data : Candidate) (f : Features)
  : ScreeningResult :=
  {| ticker := symbol ticker_data;
     company_name := f_company_name f;
     earnings_date := reportDate ticker_data;
     move_score := round2 (features_score f);
     avg_move := round2 (f_avg_abs_move f);
     analyst_upside := round2 (f_analyst_upside f);
     stock_runup := round2 (f_current_runup f);
     win_rate := round2 (f_win_rate f);
     avg_pre_earnings_runup := round2 (f_avg_pre_earnings_runup f) |}.

(** The body of the [try] for one candidate. *)
Definition analyze_ticker (w : World) (spy_runup : Q) (ticker_data : Candidate)
  : flow (ScreeningResult * Features) :=
  (f <- extract_features w spy_runup (symbol ticker_data) ;;
   Done (make_result ticker_data f, f))%flow.

(** The [for] loop with its [try]/[except Exception]: the state is the log
    so far and [screened_stocks]. *)
Definition screen_step (w : World) (spy_runup : Q)
  (st : list LogEntry * list ScreeningResult) (ticker_data : Candidate)
  : list LogEntry * list ScreeningResult :=
  match analyze_ticker w spy_runup ticker_data with
  | Done (r, f) =>
      (fst st ++ [InfoQualified (ticker r) (company_name r) (features_score f)],
       snd st ++ [r])
  | Continue _ => st
  | Raise e => (fst st ++ [WarningCouldNotAnalyze (symbol ticker_data) e], snd st)
  end.

Definition screen_loop (w : World) (spy_runup : Q) (tickers : list Candidate)
  (st : list LogEntry * list ScreeningResult)
  : list LogEntry * list ScreeningResult :=
  fold_left (screen_step w spy_runup) tickers st.

(** [sorted(screened_stocks, key=lambda x: x['move_score'], reverse=True)]:
    the stable sort by decreasing key.  [insert_desc x l] puts [x], which
    precedes every element of [l] in the list being sorted, in front of the
    first element whose key is not greater than its own. *)
Fixpoint insert_desc (x : ScreeningResult) (l : list ScreeningResult)
  : list ScreeningResult :=
  match l with
  | [] => [x]
  | y :: t =>
      match Qcompare (move_score x) (move_score y) with
      | Lt => y :: insert_desc x t
      | _ => x :: l
      end
  end.

Definition sorted_by_move_score (l : list ScreeningResult)
  : list ScreeningResult :=
  fold_right insert_desc [] l.

Definition screen_stocks_for_opportunities (w : World) (tickers : list Candidate)
  : list LogEntry * result (list ScreeningResult) :=
  let log := [InfoScreening (len tickers)] in
  match spy_runup w with
  | Err e => (log, Err e)
  | Ok spy =>
      let st := screen_loop w spy tickers (log, []) in
      (fst st, Ok (sorted_by_move_score (snd st)))
  end.

(* ------------------------------------------------------------------ *)
(** ** Vocabulary of the properties *)

Definition accepted {A : Type} (c : flow A) : bool :=
  match c with
  | Done _ => true
  | Continue _ => false
  | Raise _ => false
  end.

(** What each gate asks of the data of a ticker, stated on the data and
    not on the run of the loop body. *)
Definition gate_ok (w : World) (t : string) (g : Gate) : Prop :=
  match g with
  | G1_symbol => re_match_symbol t = true
  | G2_company_name =>
      exists i n, ticker_info w t = Fetched i /\ shortName i = Some n /\
                  n <> EmptyString
  | G3_market_cap =>
      exists i m, ticker_info w t = Fetched i /\ marketCap i = Some m /\
                  (10000000000 <= m)%Z
  | G4_target_price =>
      exists i p, ticker_info w t = Fetched i /\ targetMeanPrice i = Some p /\
                  ~ p == 0
  | G5_earnings_dates => get_historical_earnings_from_api w t <> []
  | G6_post_moves =>
      exists d h, In d (get_historical_earnings_from_api w t) /\
                  ticker_history w t (Range (d - 1) (d + 2)) = Fetched h /\
                  (2 <= List.length h)%nat
  | G7_current_price =>
      exists i p, ticker_info w t = Fetched i /\ currentPrice i = Some p /\
                  ~ p == 0
  | G8_price_series =>
      exists h, ticker_history w t Period30d = Fetched h /\ h <> []
  end.

(** The string is one to five letters [A]-[Z], nothing else. *)
Fixpoint all_upper (s : string) : bool :=
  match s with
  | EmptyString => true
  | String c t => is_upper c && all_upper t
  end.

Definition one_to_five_upper (s : string) : bool :=
  all_upper s && (1 <=? String.length s)%nat && (String.length s <=? 5)%nat.

(** The move a window contributes, by position: its first two rows. *)
Definition window_move (h : PriceSeries) : list Q :=
  match h with
  | p0 :: p1 :: _ =>
      match pct_change (Close p0) (Close p1) with
      | Ok m => [m]
      | Err _ => []
      end
  | _ => []
  end.

(** [h] is the post-earnings window fetched for the date [d], and its move
    is computed without an exception. *)
Definition post_window (w : World) (t : string) (d : Z) (h : PriceSeries) : Prop :=
  ticker_history w t (Range (d - 1) (d + 2)) = Fetched h /\
  exists m, post_move h = Ok m.







(** What a successful run of lines 173-213 has read and computed: the
    features [f] spelled out on the data of the ticker. *)
Inductive Extracted (w : World) (spy : Q) (t : string) (f : Features) : Prop :=
| Extracted_intro (i : Info) (market_cap : Z) (target_price current_price : Q)
    (first : PricePoint) (rest : PriceSeries)
    (E_symbol : re_match_symbol t = true)
    (E_info : ticker_info w t = Fetched i)
    (E_name : shortName i = Some (f_company_name f))
    (E_name_truthy : f_company_name f <> EmptyString)
    (E_cap : marketCap i = Some market_cap)
    (E_cap_large : (10000000000 <= market_cap)%Z)
    (E_target : targetMeanPrice i = Some target_price)
    (E_target_truthy : ~ target_price == 0)
    (E_dates : get_historical_earnings_from_api w t <> [])
    (E_moves : history_moves w t (get_historical_earnings_from_api w t) [] []
               = Ok (f_post_moves f, f_pre_runups f))
    (E_post : f_post_moves f <> [])
    (E_avg : f_avg_abs_move f
             = sum (map Qabs (f_post_moves f)) / inject_Z (len (f_post_moves f)))
    (E_win : f_win_rate f
             = inject_Z (count_positive (f_post_moves f))
               / inject_Z (len (f_post_moves f)) * 100)
    (E_pre : mean_or_zero (f_pre_runups f) = Ok (f_avg_pre_earnings_runup f))
    (E_current : currentPrice i = Some current_price)
    (E_current_truthy : ~ current_price == 0)
    (E_upside : f_analyst_upside f
                = (target_price - current_price) / current_price * 100)
    (E_hist : ticker_history w t Period30d = Fetched (first :: rest))
    (E_first : ~ Close first == 0)
    (E_runup : f_current_runup f
               = (Close (List.last rest first) - Close first) / Close first * 100)
    (E_relative : f_relative_runup f = Qabs (f_current_runup f - spy)).

(** The mean and the strictly positive elements, as the specification
    writes them. *)
Definition mean (xs : list Q) : Q :=
  fold_right Qplus 0 xs / inject_Z (Z.of_nat (List.length xs)).

Definition is_positive (m : Q) : bool :=
  match Qcompare 0 m with
  | Lt => true
  | _ => false
  end.

Definition positives (xs : list Q) : list Q := filter is_positive xs.

(** What one candidate adds to [screened_stocks] and to the log. *)
Definition ticker_results (w : World) (spy : Q) (c : Candidate)
  : list ScreeningResult :=
  match analyze_ticker w spy c with
  | Done (r, _) => [r]
  | _ => []
  end.

Definition ticker_log (w : World) (spy : Q) (c : Candidate) : list LogEntry :=
  match analyze_ticker w spy c with
  | Done (r, f) => [InfoQualified (ticker r) (company_name r) (features_score f)]
  | Continue _ => []
  | Raise e => [WarningCouldNotAnalyze (symbol c) e]
  end.

(** [screened_stocks] when the loop ends: the accepted results in the order
    of the candidates. *)
Definition accepted_results (w : World) (spy : Q) (tickers : list Candidate)
  : list ScreeningResult :=
  flat_map (ticker_results w spy) tickers.



(** [l] is [l'] with some elements left out, the others in the same order. *)
Inductive Subseq {A : Type} : list A -> list A -> Prop :=
| Subseq_nil : Subseq [] []
| Subseq_skip : forall x l l', Subseq l l' -> Subseq l (x :: l')
| Subseq_keep : forall x l l', Subseq l l' -> Subseq (x :: l) (x :: l').

(** [r] is the result the loop body builds for candidate [c]. *)
Definition result_of (w : World) (spy : Q) (c : Candidate) (r : ScreeningResult)
  : Prop :=
  exists f, analyze_ticker w spy c = Done (r, f).

(** The required keys of [stock.info], with a value to store under them. *)
Inductive FieldValue : Type :=
| ShortName (s : string)
| MarketCap (m : Z)
| TargetMeanPrice (p : Q)
| CurrentPrice (p : Q).

Definition absent (v : FieldValue) (i : Info) : Prop :=
  match v with
  | ShortName _ => shortName i = None
  | MarketCap _ => marketCap i = None
  | TargetMeanPrice _ => targetMeanPrice i = None
  | CurrentPrice _ => currentPrice i = None
  end.

Definition supply (v : FieldValue) (i : Info) : Info :=
  match v with
  | ShortName s =>
      {| shortName := Some s; marketCap := marketCap i;
         targetMeanPrice := targetMeanPrice i; currentPrice := currentPrice i |}
  | MarketCap m =>
      {| shortName := shortName i; marketCap := Some m;
         targetMeanPrice := targetMeanPrice i; currentPrice := currentPrice i |}
  | TargetMeanPrice p =>
      {| shortName := shortName i; marketCap := marketCap i;
         targetMeanPrice := Some p; currentPrice := currentPrice i |}
  | CurrentPrice p =>
      {| shortName := shortName i; marketCap := marketCap i;
         targetMeanPrice := targetMeanPrice i; currentPrice := Some p |}
  end.

(** The world in which [stock.info] of ticker [t] is [i]. *)
Definition with_info (w : World) (t : string) (i : Info) : World :=
  {| ticker_info := fun t' => if String.eqb t' t then Fetched i
                              else ticker_info w t';
     ticker_history := ticker_history w;
     earnings_json := earnings_json w |}.

(** The features of a ticker none of whose pre-earnings windows has a
    row. *)
Definition without_runups (f : Features) : Features :=
  {| f_company_name := f_company_name f;
     f_post_moves := f_post_moves f;
     f_pre_runups := [];
     f_avg_abs_move := f_avg_abs_move f;
     f_win_rate := f_win_rate f;
     f_avg_pre_earnings_runup := 0;
     f_analyst_upside := f_analyst_upside f;
     f_current_runup := f_current_runup f;
     f_relative_runup := f_relative_runup f |}.

(** The world in which every 30-day window before an earnings date is
    empty, everything else unchanged. *)
Definition without_pre_windows (w : World) : World :=
  {| ticker_info := ticker_info w;
     ticker_history := fun t q =>
       match q with
       | Period30d => ticker_history w t q
       | Range s e => if (e - s =? 30)%Z then Fetched []
                      else ticker_history w t q
       end;
     earnings_json := earnings_json w |}.

(* ------------------------------------------------------------------ *)
(** ** The worked examples on binary64 doubles *)

Module Binary64.

Local Open Scope float_scope.

(** Line 215 on doubles. *)
Definition score (avg_abs_move analyst_upside relative_runup : float) : float :=
  (avg_abs_move * 0.5) + (analyst_upside * 0.3) + (relative_runup * 0.2).

(** Line 203 on doubles, for [up_moves] positive moves out of [n]. *)
Definition win_rate (up_moves n : float) : float := (up_moves / n) * 100.

End Binary64.

(* ------------------------------------------------------------------ *)
(** ** A concrete market, used to run the definitions *)

Module Demo.

Local Open Scope string_scope.

Definition pt (d : Z) (c : Q) : PricePoint := {| pdate := d; Close := c |}.

Definition big : Info :=
  {| shortName := Some "Alpha Corp"; marketCap := Some 50000000000%Z;
     targetMeanPrice := Some 110; currentPrice := Some 100 |}.

Definition info (t : string) : fetched Info :=
  if t =? "BBB" then
    Fetched {| shortName := Some "Beta Ltd"; marketCap := Some 5000000000%Z;
               targetMeanPrice := Some 12; currentPrice := Some 10 |}
  else if t =? "CCC" then Failed "HTTP 502"
  else if t =? "NOT" then
    Fetched {| shortName := Some "No Target"; marketCap := Some 50000000000%Z;
               targetMeanPrice := None; currentPrice := Some 100 |}
  else if t =? "NIL" then
    Fetched {| shortName := None; marketCap := None;
               targetMeanPrice := None; currentPrice := None |}
  else Fetched big.

Definition earnings (t : string) : fetched (option (list (option Z))) :=
  if (t =? "AAA") || (t =? "DDD") then
    Fetched (Some [Some 100; Some 200; Some 300; Some 400]%Z)
  else if (t =? "MOV") || (t =? "ZED") || (t =? "NOT") then
    Fetched (Some [Some 100%Z])
  else if t =? "GAP" then Fetched (Some [Some 500%Z])
  else if t =? "MON" then Fetched (Some [Some 10%Z])
  else if t =? "OLD" then Fetched None
  else Failed "rate limit".

(** Post-earnings windows of the four quarters of AAA and DDD: two rows
    each, the day before and the day itself. *)
Definition quarter_window (d : Z) : PriceSeries :=
  if (d =? 100)%Z then [pt 99 100; pt 100 103]
  else if (d =? 200)%Z then [pt 199 100; pt 200 99]
  else if (d =? 300)%Z then [pt 299 100; pt 300 102]
  else if (d =? 400)%Z then [pt 399 200; pt 400 199]
  else [].

(** The window of MON, whose earnings date is day 10, a day whose eve has
    no row (a Monday). *)
Definition monday_window : PriceSeries := [pt 10 100; pt 11 110].

Definition history (t : string) (q : HistoryQuery) : fetched PriceSeries :=
  match q with
  | Period30d =>
      if t =? "SPY" then Fetched [pt 1 100; pt 15 101; pt 30 102]
      else Fetched [pt 1 100; pt 30 104]
  | Range s e =>
      if (e - s =? 3)%Z then
        if t =? "MOV" then Fetched [pt s 100; pt (s + 1) 105]
        else if t =? "MON" then Fetched monday_window
        else if t =? "ZED" then Fetched [pt s 0; pt (s + 1) 5]
        else Fetched (quarter_window (s + 1))
      else
        if t =? "DDD" then Fetched [pt s 100; pt (e - 1) 105]
        else Fetched []
  end.

Definition world : World :=
  {| ticker_info := info; ticker_history := history; earnings_json := earnings |}.

(** The same market with the benchmark frame empty. *)
Definition world_no_benchmark : World :=
  {| ticker_info := info;
     ticker_history := fun t q =>
       if t =? "SPY" then Fetched [] else history t q;
     earnings_json := earnings |}.

(** The same market with a benchmark frame that starts at close 0. *)
Definition world_zero_benchmark : World :=
  {| ticker_info := info;
     ticker_history := fun t q =>
       if t =? "SPY" then Fetched [pt 1 0; pt 30 5] else history t q;
     earnings_json := earnings |}.


Definition cand (s : string) : Candidate :=
  {| symbol := s; reportDate := "2024-05-01" |}.

Definition candidates : list Candidate :=
  [cand "AAA"; cand "BBB"; cand "CCC"; cand "DDD"; cand "MOV"].

End Demo.

(* ------------------------------------------------------------------ *)
(** ** Vocabulary of the further properties *)

(** The earnings endpoint gives nothing usable for a ticker: the request
    or the decoding fails, the key is missing, the list is empty, or one of
    the first eight reports has no parsable date. *)
Definition no_usable_history (w : World) (t : string) : Prop :=
  (exists msg, earnings_json w t = Failed msg)
  \/ earnings_json w t = Fetched None
  \/ earnings_json w t = Fetched (Some [])
  \/ (exists reports, earnings_json w t = Fetched (Some reports) /\
                      In None (firstn 8 reports)).





(** The tickers the log reports as qualified, and the ones it warns
    about, in log order. *)
Definition qualified_tickers (log : list LogEntry) : list string :=
  flat_map (fun entry => match entry with
                         | InfoQualified t _ _ => [t]
                         | _ => []
                         end) log.

Definition warned_tickers (log : list LogEntry) : list string :=
  flat_map (fun entry => match entry with
                         | WarningCouldNotAnalyze t _ => [t]
                         | _ => []
                         end) log.

Definition raises (w : World) (spy : Q) (c : Candidate) : bool :=
  match analyze_ticker w spy c with
  | Raise _ => true
  | _ => false
  end.

(** A key of [stock.info] that is present with a falsy value. *)
Definition falsy_field (i : Info) : Prop :=
  shortName i = Some EmptyString
  \/ marketCap i = Some 0%Z
  \/ (exists p, targetMeanPrice i = Some p /\ p == 0)
  \/ (exists p, currentPrice i = Some p /\ p == 0).


(* ------------------------------------------------------------------ *)
(** ** The rest of the script: configuration, calendar, competitors,
       entry price, [main]

    What these functions reach outside the repository is gathered in a
    record [Host].  As in [World], a provider of data answers the same
    request the same way throughout a run ([yfinance_cache] keeps what it
    has fetched); the generative model does not, so its replies are
    numbered by request.  The [logger] calls of these functions are left
    out: they return nothing and change neither the globals nor any value
    returned. *)

Module Script.

Local Open Scope string_scope.

(** An exception that leaves one of the functions below: one raised inside
    a library call, the [ValueError] or [TypeError] of a format
    specification applied to a [str] or to [None], or one that leaves
    [screen_stocks_for_opportunities]. *)
Inductive failure : Type :=
| LibraryError (msg : string)
| FormatError
| EngineError (e : exn).

(** How a call ends: [return], an exception, or [sys.exit]. *)
Inductive outcome (A : Type) : Type :=
| Returns (a : A)
| Raises (e : failure)
| Exits (code : Z).

Arguments Returns {A} a.
Arguments Raises {A} e.
Arguments Exits {A} code.

Definition obind {A B : Type} (c : outcome A) (k : A -> outcome B) : outcome B :=
  match c with
  | Returns a => k a
  | Raises e => Raises e
  | Exits code => Exits code
  end.

(** The module-level variables [setup_environment] assigns. *)
Record Globals : Type := {
  GOOGLE_API_KEY : option string;
  ALPHA_VANTAGE_API_KEY : option string;
  GITHUB_TOKEN : option string;
  GITHUB_REPO : option string;
  NLP_MODEL : option string
}.

Definition initial_globals : Globals :=
  {| GOOGLE_API_KEY := None; ALPHA_VANTAGE_API_KEY := None;
     GITHUB_TOKEN := None; GITHUB_REPO := None; NLP_MODEL := None |}.

(** [spacy.load]: the model, the [OSError] the code catches, or another
    exception. *)
Inductive load_outcome : Type :=
| Loaded
| LoadOSError
| LoadError (msg : string).

(** A row of [csv.DictReader]: a dictionary from column names to fields,
    a field being [None] where the line is short. *)
Definition CsvRow : Type := list (string * option string).

(** A decoded JSON value. *)
#[local] Set Warnings "-register-all".
Inductive Json : Type :=
| JNull
| JBool (b : bool)
| JNumber (x : Q)
| JString (s : string)
| JArray (items : list Json)
| JObject (members : list (string * Json)).

Record Host : Type := {
  (* config.ini, genai, spaCy *)
  config_exists : bool;
  config_read : fetched unit;
  config_get : string -> string -> fetched (option string);
  genai_configure : string -> fetched unit;
  spacy_load : load_outcome;
  (* the earnings calendar: [response.text.strip()] for an API key, the
     rows [DictReader] yields for a text, [strptime] and [strftime] with
     ['%Y-%m-%d'], and [datetime.now().date()] *)
  calendar_text : string -> fetched string;
  csv_DictReader : string -> fetched (list CsvRow);
  strptime : string -> option Z;
  strftime : Z -> string;
  today : Z;
  (* market data: what the screen reads, the two moving averages of
     [stock.info], and the column [recommendations['ticker']] *)
  market : World;
  moving_averages : string -> option Q * option Q;
  recommended_tickers : string -> fetched (list string);
  (* Gemini: the text of the reply to the n-th request of the run, given
     its prompt, and [json.loads] of a reply once stripped of its code
     fences ([None] when it raises) *)
  generate_text : nat -> string -> fetched string;
  json_of_reply : string -> option Json;
  (* output: [datetime.now().isoformat()], [open] with [json.dump], and
     [datetime.now().strftime('%Y-%m-%d %H:%M:%S')] *)
  now_isoformat : string;
  write_json : fetched unit;
  now_strftime : string
}.

(* ------------------------------------------------------------------ *)
(** *** [setup_environment] *)

Definition truthy_key (k : option string) : bool :=
  match k with
  | Some s => truthy_str s
  | None => false
  end.

Definition key_value (k : option string) : string :=
  match k with
  | Some s => s
  | None => EmptyString
  end.

(** Returns what the function returns or raises, and the globals it
    leaves. *)
Definition setup_environment (h : Host) (g : Globals)
  : outcome bool * Globals :=
  if negb (config_exists h) then (Returns false, g)
  else
  match config_read h with
  | Failed msg => (Raises (LibraryError msg), g)
  | Fetched _ =>
  match config_get h "API_KEYS" "GOOGLE_API_KEY" with
  | Failed msg => (Raises (LibraryError msg), g)
  | Fetched google =>
  let g1 := {| GOOGLE_API_KEY := google;
               ALPHA_VANTAGE_API_KEY := ALPHA_VANTAGE_API_KEY g;
               GITHUB_TOKEN := GITHUB_TOKEN g; GITHUB_REPO := GITHUB_REPO g;
               NLP_MODEL := NLP_MODEL g |} in
  match config_get h "API_KEYS" "ALPHA_VANTAGE_API_KEY" with
  | Failed msg => (Raises (LibraryError msg), g1)
  | Fetched alpha =>
  let g2 := {| GOOGLE_API_KEY := google; ALPHA_VANTAGE_API_KEY := alpha;
               GITHUB_TOKEN := GITHUB_TOKEN g; GITHUB_REPO := GITHUB_REPO g;
               NLP_MODEL := NLP_MODEL g |} in
  match config_get h "GITHUB" "TOKEN" with
  | Failed msg => (Raises (LibraryError msg), g2)
  | Fetched token =>
  let g3 := {| GOOGLE_API_KEY := google; ALPHA_VANTAGE_API_KEY := alpha;
               GITHUB_TOKEN := token; GITHUB_REPO := GITHUB_REPO g;
               NLP_MODEL := NLP_MODEL g |} in
  match config_get h "GITHUB" "REPO_NAME" with
  | Failed msg => (Raises (LibraryError msg), g3)
  | Fetched repo =>
  let g4 := {| GOOGLE_API_KEY := google; ALPHA_VANTAGE_API_KEY := alpha;
               GITHUB_TOKEN := token; GITHUB_REPO := repo;
               NLP_MODEL := NLP_MODEL g |} in
  if negb (forallb truthy_key [google; alpha; token; repo])
  then (Returns false, g4)
  else
  match genai_configure h (key_value google) with
  | Failed _ => (Returns false, g4)
  | Fetched _ =>
  match spacy_load h with
  | LoadOSError => (Returns false, g4)
  | LoadError msg => (Raises (LibraryError msg), g4)
  | Loaded =>
      (Returns true,
       {| GOOGLE_API_KEY := google; ALPHA_VANTAGE_API_KEY := alpha;
          GITHUB_TOKEN := token; GITHUB_REPO := repo;
          NLP_MODEL := Some "en_core_web_sm" |})
  end end end end end end end.

(* ------------------------------------------------------------------ *)
(** *** [get_upcoming_earnings_from_api] *)

(** One dictionary of the list the function returns; the symbol is
    whatever the row holds under ['symbol'], [None] included. *)
Record Upcoming : Type := {
  u_symbol : option string;
  u_reportDate : string
}.

(** [row[key]]: [None] is [KeyError]. *)
Definition getitem (row : CsvRow) (key : string) : option (option string) :=
  match find (fun kv => fst kv =? key) row with
  | Some kv => Some (snd kv)
  | None => None
  end.

(** The body of the [for] over the rows, with its
    [except (ValueError, TypeError, KeyError): continue]. *)
Definition upcoming_of_row (h : Host) (row : CsvRow) : list Upcoming :=
  match getitem row "reportDate" with
  | Some (Some text) =>
      match strptime h text with
      | Some report_date =>
          if ((today h <=? report_date) && (report_date <=? today h + 14))%Z
          then match getitem row "symbol" with
               | Some sym =>
                   [{| u_symbol := sym;
                       u_reportDate := strftime h report_date |}]
               | None => []
               end
          else []
      | None => []
      end
  | Some None => []
  | None => []
  end.

Definition get_upcoming_earnings_from_api (h : Host) (g : Globals)
  : list Upcoming :=
  if negb (truthy_key (ALPHA_VANTAGE_API_KEY g)) then []
  else
  match calendar_text h (key_value (ALPHA_VANTAGE_API_KEY g)) with
  | Failed _ => []
  | Fetched response_text =>
      if negb (String.prefix "symbol,name,reportDate" response_text) then []
      else
      match csv_DictReader h response_text with
      | Failed _ => []
      | Fetched rows => flat_map (upcoming_of_row h) rows
      end
  end.

(* ------------------------------------------------------------------ *)
(** *** Number formatting: [f"{x:.2f}"], [f"{x:+.2f}"], [f"{x:.0f}"] *)

Definition digits (n : Z) : string :=
  NilZero.string_of_uint (N.to_uint (Z.to_N n)).

Fixpoint zeros (k : nat) : string :=
  match k with
  | O => EmptyString
  | S k' => String "0" (zeros k')
  end.

Definition format_f (plus : bool) (decimals : nat) (x : Q) : string :=
  let scale := (10 ^ Z.of_nat decimals)%Z in
  let n := round_half_even (Qabs x * inject_Z scale) in
  let sign := match Qcompare x 0 with
              | Lt => "-"
              | _ => if plus then "+" else EmptyString
              end in
  let fraction := digits (n mod scale) in
  sign ++ digits (n / scale)
  ++ (if (decimals =? 0)%nat then EmptyString
      else "." ++ zeros (decimals - String.length fraction) ++ fraction).

(* ------------------------------------------------------------------ *)
(** *** [get_competitor_performance] *)

(** [Series.unique()]: the values in order of first appearance. *)
Fixpoint unique (column : list string) : list string :=
  match column with
  | [] => []
  | x :: rest => x :: filter (fun y => negb (y =? x)) (unique rest)
  end.

Definition no_competitor_data : string := "No competitor data found.".

(** The body of the [for] over the competitors, with its
    [except Exception: continue]: the entry appended, if any. *)
Definition competitor_entry (w : World) (comp_ticker : string) : list string :=
  match ticker_history w comp_ticker Period30d with
  | Failed _ => []
  | Fetched hist =>
      if negb (empty hist)
      then match (last <- iloc hist (-1) ;;
                  first <- iloc hist 0 ;;
                  pct_change first last)%result with
           | Ok runup =>
               [comp_ticker ++ ": " ++ format_f true 2 runup ++ "%"]
           | Err _ => []
           end
      else []
  end.

Definition performance (h : Host) (ticker : string) : fetched (list string) :=
  match recommended_tickers h ticker with
  | Failed msg => Failed msg
  | Fetched column =>
      Fetched (flat_map (competitor_entry (market h))
                        (firstn 3 (unique column)))
  end.

Definition get_competitor_performance (h : Host) (ticker : string) : string :=
  match recommended_tickers h ticker with
  | Failed _ => no_competitor_data
  | Fetched column =>
      let competitors := firstn 3 (unique column) in
      if (len competitors =? 0)%Z then no_competitor_data
      else
      let performance := flat_map (competitor_entry (market h)) competitors in
      if negb (empty performance)
      then "Competitor Performance (30D): " ++ String.concat ", " performance
      else no_competitor_data
  end.

(* ------------------------------------------------------------------ *)
(** *** [get_favorable_entry_price] *)

(** [f"{info.get(key, 'N/A'):.2f}"]: the default ['N/A'] and a stored
    [None] both make the format specification raise. *)
Definition format_price (x : option Q) : outcome string :=
  match x with
  | Some price => Returns (format_f false 2 price)
  | None => Raises FormatError
  end.

(** Lines 238-250: [entry_price_dossier]. *)
Definition entry_price_dossier (h : Host) (ticker : string)
  (screening_data : ScreeningResult) : outcome (list string) :=
  match ticker_info (market h) ticker with
  | Failed msg => Raises (LibraryError msg)
  | Fetched info =>
      obind (format_price (currentPrice info)) (fun current =>
      obind (format_price (fst (moving_averages h ticker))) (fun fifty =>
      obind (format_price (snd (moving_averages h ticker))) (fun two_hundred =>
      Returns
        [ "QUANTITATIVE ANALYSIS FOR " ++ ticker ++ ":";
          "- Current Price: $" ++ current;
          "- 50-Day Moving Average: $" ++ fifty;
          "- 200-Day Moving Average: $" ++ two_hundred;
          "- Historical Avg. Post-Earnings Move: +/- "
            ++ format_f false 2 (avg_move screening_data) ++ "%";
          "- Directional Bias (Win Rate): Finished UP "
            ++ format_f false 0 (win_rate screening_data)
            ++ "% of the time post-earnings.";
          "- Typical Pre-Earnings Run-up (30D): "
            ++ format_f false 2 (avg_pre_earnings_runup screening_data) ++ "%";
          "- Current 30-Day Run-up: "
            ++ format_f false 2 (stock_runup screening_data) ++ "%";
          "- Analyst Consensus Upside: "
            ++ format_f false 2 (analyst_upside screening_data) ++ "%";
          "- Competitor Context: " ++ get_competitor_performance h ticker ])))
  end.

Definition entry_prompt : string :=
  "You are a professional trading strategist...".

Definition failed_entry : list (string * Json) :=
  [("entry_price", JString "N/A"); ("rationale", JString "AI analysis failed.")].

(** Lines 258-267: the [try]; every exception in it, the [AttributeError]
    of [.get] on a reply that is not an object included, gives
    [failed_entry]. *)
Definition ask_entry_price (h : Host) (request : nat) : list (string * Json) :=
  match generate_text h request entry_prompt with
  | Failed _ => failed_entry
  | Fetched text =>
      match json_of_reply h text with
      | Some (JObject entry_data) => entry_data
      | _ => failed_entry
      end
  end.

(** [request] counts the requests sent to the model before this call. *)
Definition get_favorable_entry_price (h : Host) (request : nat)
  (ticker : string) (screening_data : ScreeningResult)
  : outcome (list (string * Json)) :=
  obind (entry_price_dossier h ticker screening_data) (fun entry_price_dossier =>
  let dossier_text := String.concat (String "010" EmptyString) entry_price_dossier in
  Returns (ask_entry_price h request)).

(* ------------------------------------------------------------------ *)
(** *** The three functions whose body is [pass], and [main] *)

(** Each returns [None]. *)
Definition conduct_deep_research (ticker : string)
  (screening_data : ScreeningResult) : option string := None.

Definition get_stock_analysis_tweet (ticker : string)
  (research_dossier : option string) (entry_data : list (string * Json))
  : option string := None.

Definition push_to_github (token repo_name : option string)
  (file_path commit_message : string) : option bool := None.

(** Truthiness of what [push_to_github] returns. *)
Definition truthy_return (r : option bool) : bool :=
  match r with
  | Some b => b
  | None => false
  end.

(** A ranked dictionary once [main] has stored ['favorable_entry'] in it. *)
Definition Enriched : Type := (ScreeningResult * list (string * Json))%type.

(** What [main] dumps to [earnings_scan.json]. *)
Record Saved : Type := {
  lastUpdated : string;
  topMovers : list Enriched
}.

(** The candidates among the dictionaries of the calendar.  A dictionary
    whose symbol is [None] makes [re.match] raise inside the [try] of the
    screen: it is logged and skipped, and adds nothing to the ranking. *)
Definition candidates_of (upcoming : list Upcoming) : list Candidate :=
  flat_map (fun u => match u_symbol u with
                     | Some s => [{| symbol := s; reportDate := u_reportDate u |}]
                     | None => []
                     end) upcoming.

(** Lines 305-309; every call that returns has sent one request. *)
Fixpoint enrich (h : Host) (request : nat) (ranked_stocks : list ScreeningResult)
  : outcome (list Enriched) :=
  match ranked_stocks with
  | [] => Returns []
  | stock_data :: rest =>
      obind (get_favorable_entry_price h request (ticker stock_data) stock_data)
        (fun entry_price_data =>
      obind (enrich h (S request) rest) (fun enriched =>
      Returns ((stock_data, entry_price_data) :: enriched)))
  end.

(** Returns how [main] ends and what it has saved by then. *)
Definition main (h : Host) : outcome unit * option Saved :=
  match setup_environment h initial_globals with
  | (Raises e, _) => (Raises e, None)
  | (Exits code, _) => (Exits code, None)
  | (Returns ready, g) =>
  if negb ready then (Exits 1, None)
  else
  let upcoming_earnings_data := get_upcoming_earnings_from_api h g in
  if empty upcoming_earnings_data then (Exits 1, None)
  else
  match snd (screen_stocks_for_opportunities (market h)
               (candidates_of upcoming_earnings_data)) with
  | Err e => (Raises (EngineError e), None)
  | Ok ranked_stocks =>
  if empty ranked_stocks then (Exits 1, None)
  else
  match enrich h 0 ranked_stocks with
  | Raises e => (Raises e, None)
  | Exits code => (Exits code, None)
  | Returns enriched_ranked_stocks =>
  match write_json h with
  | Failed msg => (Raises (LibraryError msg), None)
  | Fetched _ =>
  let saved := Some {| lastUpdated := now_isoformat h;
                       topMovers := enriched_ranked_stocks |} in
  if negb (truthy_return
             (push_to_github (GITHUB_TOKEN g) (GITHUB_REPO g)
                "earnings_scan.json"
                ("Automated earnings scan update: " ++ now_strftime h)))
  then (Exits 1, saved)
  else
  match enriched_ranked_stocks with
  | [] => (Raises (EngineError IndexError), saved)
  | top_contender :: _ =>
      let ticker_to_analyze := ticker (fst top_contender) in
      let research_dossier :=
        conduct_deep_research ticker_to_analyze (fst top_contender) in
      let tweet_body :=
        get_stock_analysis_tweet ticker_to_analyze research_dossier
          (snd top_contender) in
      (Returns tt, saved)
  end end end end end.

(* ------------------------------------------------------------------ *)
(** *** Vocabulary of the properties of the script *)

(** [row] yields the dictionary [u]: its date parses, falls within the
    fourteen days from today, both ends included, and is written back by
    [strftime]; the symbol is the field of the row. *)
Definition entry_of_row (h : Host) (row : CsvRow) (u : Upcoming) : Prop :=
  exists text d,
    getitem row "reportDate" = Some (Some text) /\
    strptime h text = Some d /\
    (today h <= d <= today h + 14)%Z /\
    getitem row "symbol" = Some (u_symbol u) /\
    u_reportDate u = strftime h d.

(** The calendar cannot be read: no key, a failed request, a reply that
    is not the CSV, or rows that cannot be iterated. *)
Definition calendar_unavailable (h : Host) (g : Globals) : Prop :=
  ALPHA_VANTAGE_API_KEY g = None
  \/ ALPHA_VANTAGE_API_KEY g = Some EmptyString
  \/ (exists key msg, ALPHA_VANTAGE_API_KEY g = Some key /\
                      calendar_text h key = Failed msg)
  \/ (exists key text, ALPHA_VANTAGE_API_KEY g = Some key /\
                       calendar_text h key = Fetched text /\
                       (String.prefix "symbol,name,reportDate" text = false
                        \/ exists msg, csv_DictReader h text = Failed msg)).

(** The calendar is read, and [rows] is what [DictReader] yields. *)
Definition calendar_read (h : Host) (g : Globals) (rows : list CsvRow) : Prop :=
  exists key text,
    ALPHA_VANTAGE_API_KEY g = Some key /\ key <> EmptyString /\
    calendar_text h key = Fetched text /\
    String.prefix "symbol,name,reportDate" text = true /\
    csv_DictReader h text = Fetched rows.


(** One of the three prices the dossier formats is missing. *)
Definition price_missing (h : Host) (ticker : string) (info : Info) : Prop :=
  currentPrice info = None
  \/ fst (moving_averages h ticker) = None
  \/ snd (moving_averages h ticker) = None.

Definition average_missing (h : Host) (ticker : string) : Prop :=
  fst (moving_averages h ticker) = None
  \/ snd (moving_averages h ticker) = None.

(** The ranking with, for each stock in turn, the entry drawn from the
    reply to the next request, starting at request [n]. *)
Definition with_entries (h : Host) (n : nat) (ranked : list ScreeningResult)
  : list Enriched :=
  combine ranked (map (ask_entry_price h) (seq n (List.length ranked))).

End Script.

(* ------------------------------------------------------------------ *)
(** ** A concrete host, used to run the script *)

Module Desk.

Import Script.
Local Open Scope string_scope.

Definition config (sect key : string) : fetched (option string) :=
  if (sect =? "API_KEYS") && (key =? "GOOGLE_API_KEY") then
    Fetched (Some "g-key")
  else if (sect =? "API_KEYS") && (key =? "ALPHA_VANTAGE_API_KEY") then
    Fetched (Some "av-key")
  else if (sect =? "GITHUB") && (key =? "TOKEN") then
    Fetched (Some "gh-token")
  else if (sect =? "GITHUB") && (key =? "REPO_NAME") then
    Fetched (Some "owner/repo")
  else Fetched None.

(** Dates are written as day numbers; today is day 100. *)
Definition parse_day (text : string) : option Z :=
  if text =? "d99" then Some 99%Z
  else if text =? "d100" then Some 100%Z
  else if text =? "d107" then Some 107%Z
  else if text =? "d114" then Some 114%Z
  else if text =? "d115" then Some 115%Z
  else None.

Definition print_day (d : Z) : string :=
  "d" ++ NilZero.string_of_uint (N.to_uint (Z.to_N d)).

Definition row (sym date : string) : CsvRow :=
  [("symbol", Some sym); ("name", Some "x"); ("reportDate", Some date)].

Definition rows : list CsvRow :=
  [row "MOV" "d100"; row "OLD" "d99"; row "AAA" "d114"; row "LATE" "d115";
   row "BAD" "soon"; [("symbol", Some "CUT")]; row "DDD" "d107"].

(** 50-day and 200-day averages: missing for DDD. *)
Definition averages (t : string) : option Q * option Q :=
  if t =? "DDD" then (Some 101, None) else (Some 101, Some 95).

Definition recommended (t : string) : fetched (list string) :=
  if t =? "MOV" then Fetched ["AAA"; "ZED"; "AAA"; "SPY"; "DDD"]
  else if t =? "AAA" then Fetched []
  else Failed "no recommendations".

(** The first reply is an object, the second is not JSON, the third
    request fails. *)
Definition reply (request : nat) (prompt : string) : fetched string :=
  match request with
  | O => Fetched "{entry_price: 98.5}"
  | S O => Fetched "I would wait."
  | _ => Failed "quota exceeded"
  end.

Definition decode (text : string) : option Json :=
  if text =? "{entry_price: 98.5}"
  then Some (JObject [("entry_price", JNumber 98.5)])
  else None.

Definition host : Host :=
  {| config_exists := true;
     config_read := Fetched tt;
     config_get := config;
     genai_configure := fun _ => Fetched tt;
     spacy_load := Loaded;
     calendar_text := fun _ => Fetched "symbol,name,reportDate,estimate";
     csv_DictReader := fun _ => Fetched rows;
     strptime := parse_day;
     strftime := print_day;
     today := 100%Z;
     market := Demo.world;
     moving_averages := averages;
     recommended_tickers := recommended;
     generate_text := reply;
     json_of_reply := decode;
     now_isoformat := "2024-05-01T09:00:00";
     write_json := Fetched tt;
     now_strftime := "2024-05-01 09:00:00" |}.

(** The same host with both averages present for every ticker. *)
Definition host_with_averages : Host :=
  {| config_exists := true;
     config_read := Fetched tt;
     config_get := config;
     genai_configure := fun _ => Fetched tt;
     spacy_load := Loaded;
     calendar_text := fun _ => Fetched "symbol,name,reportDate,estimate";
     csv_DictReader := fun _ => Fetched rows;
     strptime := parse_day;
     strftime := print_day;
     today := 100%Z;
     market := Demo.world;
     moving_averages := fun _ => (Some 101, Some 95);
     recommended_tickers := recommended;
     generate_text := reply;
     json_of_reply := decode;
     now_isoformat := "2024-05-01T09:00:00";
     write_json := Fetched tt;
     now_strftime := "2024-05-01 09:00:00" |}.

Definition ready : Globals :=
  {| GOOGLE_API_KEY := Some "g-key"; ALPHA_VANTAGE_API_KEY := Some "av-key";
     GITHUB_TOKEN := Some "gh-token"; GITHUB_REPO := Some "owner/repo";
     NLP_MODEL := Some "en_core_web_sm" |}.

End Desk.

(* ------------------------------------------------------------------ *)
(** ** Further concrete markets *)

Module Cases.

Local Open Scope string_scope.

(** The market of [Demo] in which the second of the three reports of AAA
    has a date that does not parse, and a tenth report does not either. *)
Definition world_bad_date : World :=
  {| ticker_info := Demo.info;
     ticker_history := Demo.history;
     earnings_json := fun t =>
       if t =? "AAA" then Fetched (Some [Some 100; None; Some 300]%Z)
       else if t =? "DDD" then
         Fetched (Some [Some 100; Some 200; Some 300; Some 400; Some 100;
                        Some 200; Some 300; Some 400; Some 100; None]%Z)
       else Demo.earnings t |}.

(** The market of [Demo] in which the target price of AAA is 0. *)
Definition zero_target : Info :=
  {| shortName := Some "Alpha Corp"; marketCap := Some 50000000000%Z;
     targetMeanPrice := Some 0; currentPrice := Some 100 |}.

Definition world_zero_target : World :=
  with_info Demo.world "AAA" zero_target.

End Cases.

(* ------------------------------------------------------------------ *)
(** * Lemmas *)

(** ** Inversion of binds *)

Lemma rbind_Ok {A B : Type} (c : result A) (k : A -> result B) (b : B) :
  rbind c k = Ok b -> exists a, c = Ok a /\ k a = Ok b.
Proof. destruct c as [a|e]; simpl; intros H; [eauto | discriminate]. Qed.

Lemma fbind_Done {A B : Type} (c : flow A) (k : A -> flow B) (b : B) :
  fbind c k = Done b -> exists a, c = Done a /\ k a = Done b.
Proof. destruct c as [a|g|e]; simpl; intros H; [eauto | discriminate ..]. Qed.

Lemma call_Done {A : Type} (c : result A) (a : A) :
  call c = Done a -> c = Ok a.
Proof. destruct c; simpl; congruence. Qed.

Lemma gate_Done (g : Gate) (b : bool) (u : unit) :
  gate g b = Done u -> b = true.
Proof. destruct b; simpl; congruence. Qed.

Lemma present_Done {A : Type} (g : Gate) (truthy : A -> bool) (x : option A) (a : A) :
  present g truthy x = Done a -> x = Some a /\ truthy a = true.
Proof.
  destruct x as [a'|]; simpl; [|discriminate].
  destruct (truthy a') eqn:E; intros H; inversion H; subst; auto.
Qed.

Lemma fetch_Ok {A : Type} (c : fetched A) (a : A) :
  fetch c = Ok a -> c = Fetched a.
Proof. destruct c; simpl; congruence. Qed.

Lemma fetch_not_zero_division {A : Type} (c : fetched A) :
  fetch c <> Err ZeroDivisionError.
Proof. destruct c; simpl; congruence. Qed.

(** ** Arithmetic *)

Lemma truthy_num_true (x : Q) : truthy_num x = true <-> ~ x == 0.
Proof.
  unfold truthy_num. rewrite negb_true_iff. split.
  - intros H E. apply Qeq_bool_iff in E. congruence.
  - intros H. destruct (Qeq_bool x 0) eqn:E; auto.
    apply Qeq_bool_iff in E. contradiction.
Qed.

Lemma truediv_Ok (a b q : Q) :
  truediv a b = Ok q <-> ~ b == 0 /\ q = a / b.
Proof.
  unfold truediv. destruct (Qeq_bool b 0) eqn:E.
  - apply Qeq_bool_iff in E. split; [discriminate | tauto].
  - split.
    + intros H. inversion H. split; auto.
      intros Hb. apply Qeq_bool_iff in Hb. congruence.
    + intros [_ ->]. reflexivity.
Qed.


Lemma truediv_nonzero (a b : Q) : ~ b == 0 -> truediv a b = Ok (a / b).
Proof. intros H. now apply truediv_Ok. Qed.

Lemma pct_change_Ok (first last m : Q) :
  pct_change first last = Ok m <->
  ~ first == 0 /\ m = (last - first) / first * 100.
Proof.
  unfold pct_change. split.
  - intros H. apply rbind_Ok in H as (q & Hq & H).
    apply truediv_Ok in Hq as [Hz ->]. inversion H. auto.
  - intros [Hz ->]. now rewrite (truediv_nonzero _ _ Hz).
Qed.


Lemma len_pos_nonzero {A : Type} (xs : list A) :
  xs <> [] -> ~ inject_Z (len xs) == 0.
Proof.
  intros H E. destruct xs as [|x xs]; [congruence|].
  unfold len in E. simpl List.length in E.
  unfold Qeq in E. simpl in E. lia.
Qed.

Lemma empty_false {A : Type} (xs : list A) : negb (empty xs) = true <-> xs <> [].
Proof. destruct xs; simpl; split; congruence. Qed.

(** ** Indexing *)

Lemma iloc_first (p : PricePoint) (rest : PriceSeries) :
  iloc (p :: rest) 0 = Ok (Close p).
Proof.
  unfold iloc, len. simpl List.length.
  replace (0 <? 0)%Z with false by reflexivity.
  replace ((0 <=? 0)%Z && (0 <? Z.of_nat (S (List.length rest)))%Z) with true.
  - reflexivity.
  - symmetry. apply andb_true_iff. split; [reflexivity|]. apply Z.ltb_lt. lia.
Qed.

Lemma iloc_second (p0 p1 : PricePoint) (rest : PriceSeries) :
  iloc (p0 :: p1 :: rest) 1 = Ok (Close p1).
Proof.
  unfold iloc, len. simpl List.length.
  replace (1 <? 0)%Z with false by reflexivity.
  replace ((0 <=? 1)%Z && (1 <? Z.of_nat (S (S (List.length rest))))%Z) with true.
  - reflexivity.
  - symmetry. apply andb_true_iff. split; [reflexivity|]. apply Z.ltb_lt. lia.
Qed.

Lemma last_default {A : Type} (l : list A) (x d d' : A) :
  List.last (x :: l) d = List.last (x :: l) d'.
Proof.
  revert x. induction l as [|y l IH]; intros x; [reflexivity|].
  change (List.last (y :: l) d = List.last (y :: l) d'). apply IH.
Qed.

Lemma nth_error_last {A : Type} (l : list A) (x : A) :
  nth_error (x :: l) (List.length l) = Some (List.last l x).
Proof.
  revert x. induction l as [|y l IH]; intros x; [reflexivity|].
  change (nth_error (y :: l) (List.length l) = Some (List.last (y :: l) x)).
  rewrite IH. f_equal. destruct l as [|z l]; [reflexivity|].
  change (List.last (z :: l) y = List.last (z :: l) x). apply last_default.
Qed.

Lemma iloc_last (p : PricePoint) (rest : PriceSeries) :
  iloc (p :: rest) (-1) = Ok (Close (List.last rest p)).
Proof.
  unfold iloc, len.
  replace (-1 <? 0)%Z with true by reflexivity.
  set (n := Z.of_nat (List.length (p :: rest))).
  assert (Hn : (n + -1 = Z.of_nat (List.length rest))%Z).
  { unfold n. simpl List.length. lia. }
  rewrite Hn.
  replace ((0 <=? Z.of_nat (List.length rest))%Z
           && (Z.of_nat (List.length rest) <? n)%Z) with true.
  - now rewrite Nat2Z.id, nth_error_last.
  - symmetry. apply andb_true_iff. split; [apply Z.leb_le | apply Z.ltb_lt]; lia.
Qed.

(** ** The two windows of an earnings date *)

Lemma post_move_short (h : PriceSeries) :
  (List.length h < 2)%nat -> post_move h = Ok None.
Proof.
  intros H. unfold post_move, len.
  replace (2 <=? Z.of_nat (List.length h))%Z with false; [reflexivity|].
  symmetry. apply Z.leb_gt. lia.
Qed.

Lemma post_move_two (p0 p1 : PricePoint) (rest : PriceSeries) :
  post_move (p0 :: p1 :: rest) =
  (m <- pct_change (Close p0) (Close p1) ;; Ok (Some m))%result.
Proof.
  unfold post_move, len.
  replace (2 <=? Z.of_nat (List.length (p0 :: p1 :: rest)))%Z with true.
  - now rewrite iloc_second, iloc_first.
  - symmetry. apply Z.leb_le. simpl List.length. lia.
Qed.

Lemma post_move_Ok (h : PriceSeries) (m : option Q) (acc : list Q) :
  post_move h = Ok m -> append_if acc m = acc ++ window_move h.
Proof.
  destruct h as [|p0 [|p1 rest]].
  - rewrite post_move_short by (simpl; lia). intros H. inversion H. simpl.
    now rewrite app_nil_r.
  - rewrite post_move_short by (simpl; lia). intros H. inversion H. simpl.
    now rewrite app_nil_r.
  - rewrite post_move_two. unfold window_move.
    destruct (pct_change (Close p0) (Close p1)) as [x|e]; simpl; intros H;
      inversion H. reflexivity.
Qed.


Lemma pre_runup_empty : pre_runup [] = Ok None.
Proof. reflexivity. Qed.



(** ** The loop over the earnings dates *)

Lemma history_moves_post (w : World) (t : string) (dates : list Z) :
  forall post pre post' pre',
    history_moves w t dates post pre = Ok (post', pre') ->
    exists windows,
      Forall2 (post_window w t) dates windows /\
      post' = post ++ flat_map window_move windows.
Proof.
  induction dates as [|d dates IH]; intros post pre post' pre' H.
  - inversion H; subst. exists []. split; [constructor|]. simpl.
    now rewrite app_nil_r.
  - simpl in H.
    apply rbind_Ok in H as (h & Hh & H). apply fetch_Ok in Hh.
    apply rbind_Ok in H as (m & Hm & H).
    apply rbind_Ok in H as (h' & _ & H).
    apply rbind_Ok in H as (r & _ & H).
    apply IH in H as (windows & Hw & ->).
    exists (h :: windows). split; [constructor; [split; eauto | assumption]|].
    rewrite (post_move_Ok _ _ _ Hm). simpl. now rewrite app_assoc.
Qed.


Lemma flat_map_window_move_nonempty (windows : list PriceSeries) :
  flat_map window_move windows <> [] ->
  exists h, In h windows /\ (2 <= List.length h)%nat.
Proof.
  induction windows as [|h windows IH]; simpl; [congruence|].
  intros H. destruct (window_move h) as [|m ms] eqn:E.
  - destruct (IH H) as (h' & Hin & Hlen). eauto.
  - exists h. split; [auto|]. destruct h as [|p0 [|p1 rest]]; simpl in E;
      try discriminate. simpl. lia.
Qed.

Lemma flat_map_window_move_empty (windows : list PriceSeries) :
  flat_map window_move windows = [] ->
  forall h, In h windows -> window_move h = [].
Proof.
  induction windows as [|h windows IH]; simpl; [tauto|].
  intros H h' [<-|Hin].
  - now apply app_eq_nil in H.
  - apply IH; auto. now apply app_eq_nil in H.
Qed.

Lemma truthy_str_true (s : string) : truthy_str s = true <-> s <> EmptyString.
Proof. destruct s; simpl; split; congruence. Qed.

Lemma large_cap_true (m : Z) : large_cap m = true <-> (10000000000 <= m)%Z.
Proof.
  unfold large_cap, truthy_int.
  rewrite andb_true_iff, !negb_true_iff, Z.eqb_neq, Z.ltb_ge. lia.
Qed.

Lemma extract_features_Done (w : World) (spy : Q) (t : string) (f : Features) :
  extract_features w spy t = Done f -> Extracted w spy t f.
Proof.
  unfold extract_features. intros H.
  apply fbind_Done in H as (u & H1 & H). apply gate_Done in H1.
  apply fbind_Done in H as (i & Hi & H). apply call_Done, fetch_Ok in Hi.
  apply fbind_Done in H as (name & Hn & H). apply present_Done in Hn as [Hn Hn'].
  apply fbind_Done in H as (cap & Hc & H). apply present_Done in Hc as [Hc Hc'].
  apply fbind_Done in H as (target & Ht & H). apply present_Done in Ht as [Ht Ht'].
  apply fbind_Done in H as (u5 & H5 & H). apply gate_Done in H5.
  apply fbind_Done in H as (moves & Hm & H). apply call_Done in Hm.
  apply fbind_Done in H as (u6 & H6 & H). apply gate_Done in H6.
  apply fbind_Done in H as (avg & Ha & H). apply call_Done, truediv_Ok in Ha as [_ Ha].
  apply fbind_Done in H as (share & Hs & H). apply call_Done, truediv_Ok in Hs as [_ Hs].
  apply fbind_Done in H as (avg_pre & Hp & H). apply call_Done in Hp.
  apply fbind_Done in H as (current & Hcur & H). apply present_Done in Hcur as [Hcur Hcur'].
  apply fbind_Done in H as (upside & Hu & H). apply call_Done, pct_change_Ok in Hu as [_ Hu].
  apply fbind_Done in H as (hist & Hh & H). apply call_Done, fetch_Ok in Hh.
  apply fbind_Done in H as (u8 & H8 & H). apply gate_Done in H8.
  destruct hist as [|first rest]; [discriminate|].
  rewrite iloc_last, iloc_first in H. simpl in H.
  apply fbind_Done in H as (runup & Hr & H). apply call_Done, pct_change_Ok in Hr as [Hz Hr].
  inversion H; subst; clear H. destruct moves as [post pre]. simpl in *.
  econstructor; simpl; eauto.
  - now apply truthy_str_true.
  - now apply large_cap_true.
  - now apply truthy_num_true.
  - now apply empty_false.
  - now apply empty_false.
  - now apply truthy_num_true.
Qed.

Tactic Notation "flow_simpl" :=
  cbn [fbind rbind call fetch gate present negb empty fst snd].
Tactic Notation "flow_simpl" "in" hyp(H) :=
  cbn [fbind rbind call fetch gate present negb empty fst snd] in H.

Lemma Extracted_extract_features (w : World) (spy : Q) (t : string) (f : Features) :
  Extracted w spy t f -> extract_features w spy t = Done f.
Proof.
  intros []. unfold extract_features.
  apply truthy_str_true in E_name_truthy. apply large_cap_true in E_cap_large.
  apply truthy_num_true in E_target_truthy.
  pose proof (len_pos_nonzero _ E_post) as Hlen.
  apply empty_false in E_dates, E_post.
  apply truthy_num_true in E_current_truthy as Hc.
  rewrite E_symbol, E_info. flow_simpl.
  rewrite E_name. flow_simpl. rewrite E_name_truthy. flow_simpl.
  rewrite E_cap. flow_simpl. rewrite E_cap_large. flow_simpl.
  rewrite E_target. flow_simpl. rewrite E_target_truthy. flow_simpl.
  rewrite E_dates. flow_simpl. rewrite E_moves. flow_simpl.
  rewrite E_post. flow_simpl.
  rewrite !(truediv_nonzero _ _ Hlen). flow_simpl.
  rewrite E_pre. flow_simpl. rewrite E_current. flow_simpl.
  rewrite Hc. flow_simpl.
  unfold pct_change at 1. rewrite (truediv_nonzero _ _ E_current_truthy). flow_simpl.
  rewrite E_hist. flow_simpl. rewrite iloc_last, iloc_first. flow_simpl.
  unfold pct_change. rewrite (truediv_nonzero _ _ E_first). flow_simpl.
  destruct f; simpl in *; subst. reflexivity.
Qed.

(** ** Where the loop body stops *)

Lemma Forall2_In_l {A B : Type} (R : A -> B -> Prop) (l : list A) (l' : list B) (a : A) :
  Forall2 R l l' -> In a l -> exists b, In b l' /\ R a b.
Proof.
  induction 1 as [|x y l l' Hxy _ IH]; simpl; [tauto|].
  intros [<-|Hin]; [eauto|]. destruct (IH Hin) as (b & Hb & Hab). eauto.
Qed.

Lemma Forall2_In_r {A B : Type} (R : A -> B -> Prop) (l : list A) (l' : list B) (b : B) :
  Forall2 R l l' -> In b l' -> exists a, In a l /\ R a b.
Proof.
  induction 1 as [|x y l l' Hxy _ IH]; simpl; [tauto|].
  intros [<-|Hin]; [eauto|]. destruct (IH Hin) as (a & Ha & Hab). eauto.
Qed.

Lemma window_move_two (h : PriceSeries) (m : option Q) :
  post_move h = Ok m -> (2 <= List.length h)%nat -> window_move h <> [].
Proof.
  destruct h as [|p0 [|p1 rest]]; simpl List.length; try lia.
  rewrite post_move_two. unfold window_move.
  destruct (pct_change (Close p0) (Close p1)); simpl; congruence.
Qed.

(** Gate 6 on the data is gate 6 of the run: the loop leaves [post_moves]
    non-empty exactly when some window has two rows. *)
Lemma post_moves_nonempty_iff (w : World) (t : string) (dates : list Z)
  (post pre : list Q) :
  history_moves w t dates [] [] = Ok (post, pre) ->
  post <> [] <->
  exists d h, In d dates /\
              ticker_history w t (Range (d - 1) (d + 2)) = Fetched h /\
              (2 <= List.length h)%nat.
Proof.
  intros H. apply history_moves_post in H as (windows & Hw & ->). simpl. split.
  - intros Hne. apply flat_map_window_move_nonempty in Hne as (h & Hin & Hlen).
    destruct (Forall2_In_r _ _ _ _ Hw Hin) as (d & Hd & Hdh & _). eauto.
  - intros (d & h & Hd & Hh & Hlen) Hnil.
    destruct (Forall2_In_l _ _ _ _ Hw Hd) as (h' & Hin & Hh' & m & Hm).
    assert (h' = h) by congruence. subst h'.
    apply (window_move_two _ _ Hm Hlen).
    eapply flat_map_window_move_empty; eauto.
Qed.

Lemma present_Continue {A : Type} (g g' : Gate) (truthy : A -> bool) (x : option A) :
  present g truthy x = Continue g' ->
  g' = g /\ forall a, x = Some a -> truthy a = false.
Proof.
  destruct x as [a|]; simpl.
  - destruct (truthy a) eqn:E; intros H; inversion H. split; auto.
    intros a' Ha. inversion Ha; subst. exact E.
  - intros H; inversion H. split; [auto | discriminate].
Qed.

Ltac earlier_gates :=
  let g' := fresh "g" in
  let Hlt := fresh "Hlt" in
  intros g' Hlt; destruct g'; simpl in Hlt; try lia; simpl; eauto 10.

Lemma extract_features_Continue (w : World) (spy : Q) (t : string) (g : Gate) :
  extract_features w spy t = Continue g ->
  ~ gate_ok w t g /\
  forall g', (gate_index g' < gate_index g)%nat -> gate_ok w t g'.
Proof.
  unfold extract_features. intros H.
  destruct (re_match_symbol t) eqn:E1; flow_simpl in H;
    [|inversion H; subst; split; [simpl; congruence | earlier_gates]].
  destruct (ticker_info w t) as [i|msg] eqn:Ei; flow_simpl in H; [|discriminate].
  destruct (present G2_company_name truthy_str (shortName i)) as [name|g2|?] eqn:E2;
    cbn [fbind] in H; [| |discriminate].
  2:{ inversion H; subst. apply present_Continue in E2 as [-> E2]. split.
      - intros (i' & n & Hi' & Hn & Hne). assert (i' = i) by congruence. subst.
        apply E2 in Hn. apply truthy_str_true in Hne. congruence.
      - earlier_gates. }
  apply present_Done in E2 as [E2 E2']. apply truthy_str_true in E2'.
  destruct (present G3_market_cap large_cap (marketCap i)) as [cap|g3|?] eqn:E3;
    cbn [fbind] in H; [| |discriminate].
  2:{ inversion H; subst. apply present_Continue in E3 as [-> E3]. split.
      - intros (i' & m & Hi' & Hm & Hle). assert (i' = i) by congruence. subst.
        apply E3 in Hm. apply large_cap_true in Hle. congruence.
      - earlier_gates. }
  apply present_Done in E3 as [E3 E3']. apply large_cap_true in E3'.
  destruct (present G4_target_price truthy_num (targetMeanPrice i)) as [target|g4|?] eqn:E4;
    cbn [fbind] in H; [| |discriminate].
  2:{ inversion H; subst. apply present_Continue in E4 as [-> E4]. split.
      - intros (i' & p & Hi' & Hp & Hne). assert (i' = i) by congruence. subst.
        apply E4 in Hp. apply truthy_num_true in Hne. congruence.
      - earlier_gates. }
  apply present_Done in E4 as [E4 E4']. apply truthy_num_true in E4'.
  destruct (negb (empty (get_historical_earnings_from_api w t))) eqn:E5;
    flow_simpl in H.
  2:{ inversion H; subst. split.
      - simpl. intros Hne. apply empty_false in Hne. congruence.
      - earlier_gates. }
  apply empty_false in E5.
  destruct (history_moves w t (get_historical_earnings_from_api w t) [] [])
    as [[post pre]|e] eqn:Em; flow_simpl in H; [|discriminate].
  pose proof (post_moves_nonempty_iff _ _ _ _ _ Em) as Hpost.
  destruct (negb (empty post)) eqn:E6; flow_simpl in H.
  2:{ inversion H; subst. split.
      - simpl. intros Hex. apply Hpost in Hex. apply empty_false in Hex. congruence.
      - earlier_gates. }
  apply empty_false in E6. pose proof (proj1 Hpost E6) as G6.
  pose proof (len_pos_nonzero _ E6) as Hlen.
  rewrite !(truediv_nonzero _ _ Hlen) in H. flow_simpl in H.
  destruct (mean_or_zero pre) as [avg_pre|e] eqn:Ep; flow_simpl in H; [|discriminate].
  destruct (present G7_current_price truthy_num (currentPrice i)) as [current|g7|?] eqn:E7;
    cbn [fbind] in H; [| |discriminate].
  2:{ inversion H; subst. apply present_Continue in E7 as [-> E7]. split.
      - intros (i' & p & Hi' & Hp & Hne). assert (i' = i) by congruence. subst.
        apply E7 in Hp. apply truthy_num_true in Hne. congruence.
      - earlier_gates. }
  apply present_Done in E7 as [E7 E7']. apply truthy_num_true in E7'.
  destruct (pct_change current target) as [upside|e] eqn:Eu; flow_simpl in H;
    [|discriminate].
  destruct (ticker_history w t Period30d) as [hist|msg] eqn:Eh; flow_simpl in H;
    [|discriminate].
  destruct hist as [|first rest]; flow_simpl in H.
  - inversion H; subst. split.
    + intros (h & Hh & Hne). congruence.
    + earlier_gates.
  - rewrite iloc_last, iloc_first in H. flow_simpl in H.
    destruct (pct_change (Close first) (Close (List.last rest first)));
      flow_simpl in H; discriminate.
Qed.


(** ** The loop over the candidates *)

Lemma screen_loop_spec (w : World) (spy : Q) (tickers : list Candidate) :
  forall st,
    screen_loop w spy tickers st =
    (fst st ++ flat_map (ticker_log w spy) tickers,
     snd st ++ accepted_results w spy tickers).
Proof.
  unfold screen_loop, accepted_results.
  induction tickers as [|c tickers IH]; intros [log acc]; simpl.
  - now rewrite !app_nil_r.
  - rewrite IH. unfold screen_step, ticker_log, ticker_results.
    destruct (analyze_ticker w spy c) as [[r f]|g|e]; simpl;
      now rewrite <- ?app_assoc.
Qed.

Lemma screen_returns (w : World) (spy : Q) (tickers : list Candidate) :
  spy_runup w = Ok spy ->
  screen_stocks_for_opportunities w tickers =
  (InfoScreening (len tickers) :: flat_map (ticker_log w spy) tickers,
   Ok (sorted_by_move_score (accepted_results w spy tickers))).
Proof.
  intros H. unfold screen_stocks_for_opportunities. rewrite H.
  now rewrite screen_loop_spec.
Qed.

Lemma screen_Ok_inv (w : World) (tickers : list Candidate)
  (out : list ScreeningResult) :
  snd (screen_stocks_for_opportunities w tickers) = Ok out ->
  exists spy, spy_runup w = Ok spy /\
              out = sorted_by_move_score (accepted_results w spy tickers).
Proof.
  unfold screen_stocks_for_opportunities.
  destruct (spy_runup w) as [spy|e]; simpl; intros H; inversion H.
  exists spy. split; [reflexivity|]. now rewrite screen_loop_spec.
Qed.

Lemma ticker_results_In (w : World) (spy : Q) (c : Candidate) (r : ScreeningResult) :
  In r (ticker_results w spy c) <-> result_of w spy c r.
Proof.
  unfold ticker_results, result_of.
  destruct (analyze_ticker w spy c) as [[r' f]|g|e]; simpl; split.
  - intros [<-|[]]. eauto.
  - intros (f' & H). inversion H. auto.
  - tauto.
  - intros (f' & H). discriminate.
  - tauto.
  - intros (f' & H). discriminate.
Qed.

Lemma accepted_results_In (w : World) (spy : Q) (tickers : list Candidate)
  (r : ScreeningResult) :
  In r (accepted_results w spy tickers) <->
  exists c, In c tickers /\ result_of w spy c r.
Proof.
  unfold accepted_results. rewrite in_flat_map.
  split; intros (c & Hc & H); exists c; (split; [assumption|]);
    now apply ticker_results_In.
Qed.

Lemma analyze_ticker_Done (w : World) (spy : Q) (c : Candidate)
  (r : ScreeningResult) (f : Features) :
  analyze_ticker w spy c = Done (r, f) <->
  extract_features w spy (symbol c) = Done f /\ r = make_result c f.
Proof.
  unfold analyze_ticker.
  destruct (extract_features w spy (symbol c)) as [f'|g|e]; simpl; split.
  - intros H. inversion H. auto.
  - intros [H ->]. inversion H. reflexivity.
  - discriminate.
  - intros [H _]. discriminate.
  - discriminate.
  - intros [H _]. discriminate.
Qed.


Lemma analyze_ticker_Raise (w : World) (spy : Q) (c : Candidate) (e : exn) :
  analyze_ticker w spy c = Raise e <->
  extract_features w spy (symbol c) = Raise e.
Proof.
  unfold analyze_ticker.
  destruct (extract_features w spy (symbol c)); simpl; split; congruence.
Qed.

(** ** The ranking *)

Lemma insert_desc_perm (x : ScreeningResult) (l : list ScreeningResult) :
  Permutation (insert_desc x l) (x :: l).
Proof.
  induction l as [|y l IH]; simpl; [reflexivity|].
  destruct (Qcompare (move_score x) (move_score y)); try reflexivity.
  rewrite IH. apply perm_swap.
Qed.

Lemma sorted_by_move_score_perm (l : list ScreeningResult) :
  Permutation (sorted_by_move_score l) l.
Proof.
  induction l as [|x l IH]; simpl; [reflexivity|].
  rewrite insert_desc_perm. now constructor.
Qed.









(** ** The symbol pattern *)

Lemma take_upper_spec (k : nat) :
  forall s n rest,
    take_upper k s = (n, rest) ->
    exists u, s = (u ++ rest)%string /\ String.length u = n /\
              all_upper u = true /\ (n <= k)%nat.
Proof.
  induction k as [|k IH]; intros s n rest H.
  - destruct s; inversion H; subst; exists EmptyString; auto.
  - destruct s as [|c s]; simpl in H.
    + inversion H; subst. exists EmptyString. repeat split; auto. lia.
    + destruct (is_upper c) eqn:Ec.
      * destruct (take_upper k s) as [n' rest'] eqn:E. inversion H; subst.
        destruct (IH _ _ _ E) as (u & -> & Hlen & Hup & Hle).
        exists (String c u). simpl. rewrite Ec, Hup, Hlen.
        repeat split; auto. lia.
      * inversion H; subst. exists EmptyString. repeat split; auto. lia.
Qed.

Lemma take_upper_app (u rest : string) :
  forall k,
    all_upper u = true -> (String.length u <= k)%nat ->
    (forall c t, rest = String c t -> is_upper c = false) ->
    take_upper k (u ++ rest) = (String.length u, rest).
Proof.
  induction u as [|c u IH]; intros k Hup Hlen Hrest; simpl.
  - destruct k; [destruct rest; reflexivity|].
    destruct rest as [|c t]; [reflexivity|]. simpl.
    now rewrite (Hrest c t eq_refl).
  - simpl in Hup, Hlen. apply andb_true_iff in Hup as [Hc Hup].
    destruct k as [|k]; [lia|]. simpl. rewrite Hc.
    rewrite (IH k Hup); [reflexivity | lia | assumption].
Qed.

Lemma string_app_empty (s : string) : (s ++ "")%string = s.
Proof. induction s as [|c s IH]; simpl; [reflexivity | now rewrite IH]. Qed.

(** The pattern accepts one to five capital letters, and the same followed
    by one newline. *)
Lemma re_match_symbol_spec (s : string) :
  re_match_symbol s = true <->
  one_to_five_upper s = true \/
  exists u, s = (u ++ String "010" EmptyString)%string /\
            one_to_five_upper u = true.
Proof.
  unfold re_match_symbol, one_to_five_upper. split.
  - destruct (take_upper 5 s) as [n rest] eqn:E. intros H.
    apply andb_true_iff in H as [Hn Hrest]. apply Nat.leb_le in Hn.
    destruct (take_upper_spec _ _ _ _ E) as (u & -> & Hlen & Hup & Hle).
    assert (Hu : all_upper u && (1 <=? String.length u)%nat
                 && (String.length u <=? 5)%nat = true).
    { rewrite Hup, Hlen. cbn [andb].
      apply andb_true_iff. split; apply Nat.leb_le; lia. }
    destruct rest as [|c [|c' rest]]; simpl in Hrest; try discriminate.
    + left. now rewrite string_app_empty.
    + right. apply Ascii.eqb_eq in Hrest. subst c. eauto.
  - intros [H|(u & -> & H)];
      apply andb_true_iff in H as [H H5]; apply andb_true_iff in H as [Hup H1];
      apply Nat.leb_le in H1, H5.
    + rewrite <- (string_app_empty s).
      rewrite (take_upper_app s "" 5 Hup H5); [|discriminate].
      apply andb_true_iff. split; [now apply Nat.leb_le | reflexivity].
    + rewrite (take_upper_app u _ 5 Hup H5).
      * apply andb_true_iff. split; [now apply Nat.leb_le | reflexivity].
      * intros c t Hc. inversion Hc; subst. reflexivity.
Qed.

Example symbol_examples :
  map re_match_symbol
    ["AAPL"; ""; "ABCDEF"; "aB"; "BRK.B"; String "A" (String "010" "")]%string
  = [true; false; false; false; false; true].
Proof. reflexivity. Qed.

(** ** Rounding *)

Lemma round_half_even_comp (x y : Q) :
  x == y -> round_half_even x = round_half_even y.
Proof.
  intros H. unfold round_half_even. cbv zeta.
  rewrite (Qfloor_comp x y H).
  assert (E : Qcompare (x - inject_Z (Qfloor y)) (1 # 2)
              = Qcompare (y - inject_Z (Qfloor y)) (1 # 2)).
  { apply Qcompare_comp; [now rewrite H | reflexivity]. }
  now rewrite E.
Qed.

Lemma round2_comp (x y : Q) : x == y -> round2 x = round2 y.
Proof.
  intros H. unfold round2.
  rewrite (round_half_even_comp (x * 100) (y * 100)); [reflexivity|].
  now rewrite H.
Qed.

(* ------------------------------------------------------------------ *)
(** * The score *)

(** C1, as the specification words its example: the features
    (5.0, 10.0, 2.0) do not score 6.4. *)
Lemma C1_example_score_is_not_6_4 : ~ score 5.0 10.0 2.0 == 6.4.
Proof. intros H. vm_compute in H. discriminate. Qed.

(** The same example on doubles: 5.9, not 6.4. *)
Example score_example_binary64 :
  (PrimFloat.eqb (Binary64.score 5 10 2) 5.9 = true
   /\ PrimFloat.eqb (Binary64.score 5 10 2) 6.4 = false)%float.
Proof. split; reflexivity. Qed.

(** C1, amended: for every accepted ticker the composite score is
    [avgAbsPostMove * 0.5 + analystUpsidePct * 0.3 + relativeRunup * 0.2],
    the result stores it rounded to two decimals, and for the features
    (5.0, 10.0, 2.0) it is 5.9. *)
Theorem C1_score_formula (w : World) (spy : Q) (c : Candidate)
  (r : ScreeningResult) (f : Features) :
  analyze_ticker w spy c = Done (r, f) ->
  features_score f
  = f_avg_abs_move f * 0.5 + f_analyst_upside f * 0.3 + f_relative_runup f * 0.2
  /\ move_score r
     = round2 (f_avg_abs_move f * 0.5 + f_analyst_upside f * 0.3
               + f_relative_runup f * 0.2)
  /\ f_relative_runup f = Qabs (f_current_runup f - spy)
  /\ (f_avg_abs_move f == 5.0 -> f_analyst_upside f == 10.0 ->
      f_relative_runup f == 2.0 ->
      features_score f == 5.9 /\ move_score r == 5.9).
Proof.
  intros H. apply analyze_ticker_Done in H as [H ->].
  apply extract_features_Done in H as [].
  split; [reflexivity|]. split; [reflexivity|]. split; [assumption|].
  intros Ha Hu Hr.
  assert (Hs : features_score f == 5.9).
  { unfold features_score, score. rewrite Ha, Hu, Hr. reflexivity. }
  split; [exact Hs|].
  simpl move_score. now rewrite (round2_comp _ _ Hs).
Qed.

Lemma C1_score_formula_witness :
  exists r f,
    analyze_ticker Demo.world 2 (Demo.cand "MOV") = Done (r, f) /\
    features_score f == 5.9 /\ move_score r == 5.9.
Proof.
  eexists. eexists. split; [vm_compute; reflexivity|].
  eapply (C1_score_formula Demo.world 2 (Demo.cand "MOV"));
    vm_compute; reflexivity.
Defined.

(* ------------------------------------------------------------------ *)
(** * Averages over the post-earnings moves *)

Lemma fold_left_Qplus (xs : list Q) (a : Q) :
  fold_left Qplus xs a == a + fold_right Qplus 0 xs.
Proof.
  revert a. induction xs as [|x xs IH]; intros a; simpl.
  - now rewrite Qplus_0_r.
  - rewrite IH. now rewrite Qplus_assoc.
Qed.

Lemma sum_fold_right (xs : list Q) : sum xs == fold_right Qplus 0 xs.
Proof. unfold sum. rewrite fold_left_Qplus. apply Qplus_0_l. Qed.

Lemma is_positive_spec (m : Q) : negb (Qle_bool m 0) = is_positive m.
Proof.
  unfold is_positive. destruct (Qcompare 0 m) eqn:E.
  - apply Qeq_alt in E. apply negb_false_iff, Qle_bool_iff.
    rewrite <- E. apply Qle_refl.
  - apply Qlt_alt in E. apply negb_true_iff.
    destruct (Qle_bool m 0) eqn:E'; [|reflexivity].
    apply Qle_bool_iff in E'. exfalso. eapply Qlt_irrefl, Qlt_le_trans; eauto.
  - apply Qgt_alt in E. apply negb_false_iff, Qle_bool_iff.
    now apply Qlt_le_weak.
Qed.

Lemma count_positive_spec (xs : list Q) :
  count_positive xs = Z.of_nat (List.length (positives xs)).
Proof.
  unfold count_positive, positives. f_equal. f_equal.
  apply filter_ext. intros m. apply is_positive_spec.
Qed.

Lemma is_positive_comp (x y : Q) : x == y -> is_positive x = is_positive y.
Proof.
  intros H. unfold is_positive.
  now rewrite (Qcompare_comp 0 0 (Qeq_refl 0) x y H).
Qed.

Lemma positives_length_comp (xs ys : list Q) :
  Forall2 Qeq xs ys ->
  List.length (positives xs) = List.length (positives ys).
Proof.
  unfold positives. induction 1 as [|x y xs ys Hxy _ IH]; simpl; [reflexivity|].
  rewrite (is_positive_comp x y Hxy). destruct (is_positive y); simpl; now rewrite IH.
Qed.

(** C8: for an accepted ticker the list of post-moves is not empty,
    avgAbsPostMove is the mean of their absolute values and winRatePct is
    100 times the share of strictly positive ones (the result stores both
    rounded to two decimals); for the post-moves [3.0, -1.0, 2.0, -0.5]
    the win rate is 50.0. *)
Theorem C8_average_move_and_win_rate (w : World) (spy : Q) (c : Candidate)
  (r : ScreeningResult) (f : Features) :
  analyze_ticker w spy c = Done (r, f) ->
  f_post_moves f <> []
  /\ f_avg_abs_move f == mean (map Qabs (f_post_moves f))
  /\ f_win_rate f
     == 100 * inject_Z (Z.of_nat (List.length (positives (f_post_moves f))))
        / inject_Z (Z.of_nat (List.length (f_post_moves f)))
  /\ avg_move r = round2 (f_avg_abs_move f)
  /\ win_rate r = round2 (f_win_rate f)
  /\ (Forall2 Qeq (f_post_moves f) [3.0; -1.0; 2.0; -0.5] ->
      f_win_rate f == 50.0 /\ win_rate r == 50.0).
Proof.
  intros H. apply analyze_ticker_Done in H as [H ->].
  apply extract_features_Done in H as [].
  assert (Hwin : f_win_rate f
     == 100 * inject_Z (Z.of_nat (List.length (positives (f_post_moves f))))
        / inject_Z (Z.of_nat (List.length (f_post_moves f)))).
  { rewrite E_win, count_positive_spec. unfold len, Qdiv. ring. }
  split; [assumption|]. split.
  { rewrite E_avg. unfold mean, len. rewrite sum_fold_right, length_map.
    reflexivity. }
  split; [exact Hwin|]. split; [reflexivity|]. split; [reflexivity|].
  intros Hmoves.
  assert (H50 : f_win_rate f == 50.0).
  { rewrite Hwin, (positives_length_comp _ _ Hmoves).
    rewrite (Forall2_length Hmoves). vm_compute. reflexivity. }
  split; [exact H50|].
  simpl win_rate. now rewrite (round2_comp _ _ H50).
Qed.

(** The same example on doubles: two positive moves out of four. *)
Example win_rate_example_binary64 :
  (PrimFloat.eqb (Binary64.win_rate 2 4) 50 = true)%float.
Proof. reflexivity. Qed.

Lemma C8_average_move_and_win_rate_witness :
  exists r f,
    analyze_ticker Demo.world 2 (Demo.cand "AAA") = Done (r, f) /\
    Forall2 Qeq (f_post_moves f) [3.0; -1.0; 2.0; -0.5] /\
    f_win_rate f == 50.0 /\ win_rate r == 50.0.
Proof.
  eexists. eexists. split; [vm_compute; reflexivity|].
  assert (Hm : Forall2 Qeq
                 [300 # 100; -100 # 100; 200 # 100; -100 # 200]
                 [3.0; -1.0; 2.0; -0.5]).
  { repeat constructor. }
  split; [vm_compute; exact Hm|].
  eapply (C8_average_move_and_win_rate Demo.world 2 (Demo.cand "AAA"));
    [vm_compute; reflexivity | vm_compute; exact Hm].
Defined.

(* ------------------------------------------------------------------ *)
(** * Where the results come from *)

Lemma Subseq_length {A : Type} (l l' : list A) :
  Subseq l l' -> (List.length l <= List.length l')%nat.
Proof. induction 1; simpl; lia. Qed.

Lemma accepted_results_origins (w : World) (spy : Q) (tickers : list Candidate) :
  exists origins,
    Subseq origins tickers /\
    Forall2 (result_of w spy) origins (accepted_results w spy tickers).
Proof.
  unfold accepted_results.
  induction tickers as [|c tickers (origins & Hsub & Hres)]; simpl.
  - exists []. split; constructor.
  - unfold ticker_results at 1.
    destruct (analyze_ticker w spy c) as [[r f]|g|e] eqn:E; simpl.
    + exists (c :: origins). split; [now constructor|].
      constructor; [now exists f | assumption].
    + exists origins. split; [now constructor | assumption].
    + exists origins. split; [now constructor | assumption].
Qed.

Lemma result_of_fields (w : World) (spy : Q) (c : Candidate) (r : ScreeningResult) :
  result_of w spy c r ->
  ticker r = symbol c /\ earnings_date r = reportDate c.
Proof.
  intros (f & H). apply analyze_ticker_Done in H as [_ ->]. split; reflexivity.
Qed.

(** C10: the ranking is a rearrangement of results built for candidates
    picked, each once and in order, from the input; every result carries
    the symbol and the report date of a candidate of the input; the output
    is not longer than the input and is empty for an empty input. *)
Theorem C10_results_come_from_candidates (w : World) (spy : Q)
  (tickers : list Candidate) :
  spy_runup w = Ok spy ->
  exists out,
    snd (screen_stocks_for_opportunities w tickers) = Ok out
    /\ (exists origins accepted,
          Subseq origins tickers /\
          Forall2 (result_of w spy) origins accepted /\
          Permutation out accepted)
    /\ (forall r, In r out ->
          exists c, In c tickers /\ ticker r = symbol c /\
                    earnings_date r = reportDate c)
    /\ (List.length out <= List.length tickers)%nat
    /\ (tickers = [] -> out = []).
Proof.
  intros Hspy. rewrite (screen_returns w spy tickers Hspy). simpl snd.
  eexists. split; [reflexivity|].
  destruct (accepted_results_origins w spy tickers) as (origins & Hsub & Hres).
  pose proof (sorted_by_move_score_perm (accepted_results w spy tickers)) as Hperm.
  split; [|split; [|split]].
  - exists origins, (accepted_results w spy tickers). auto.
  - intros r Hr. apply (Permutation_in _ Hperm) in Hr.
    apply accepted_results_In in Hr as (c & Hc & Hcr).
    exists c. split; [assumption|]. exact (result_of_fields w spy c r Hcr).
  - rewrite (Permutation_length Hperm), <- (Forall2_length Hres).
    now apply Subseq_length.
  - intros ->. reflexivity.
Qed.

Lemma C10_results_come_from_candidates_witness :
  exists out,
    snd (screen_stocks_for_opportunities Demo.world Demo.candidates) = Ok out
    /\ (List.length out <= 5)%nat.
Proof.
  destruct (C10_results_come_from_candidates Demo.world (200 # 100)
              Demo.candidates)
    as (out & Hout & _ & _ & Hlen & _); [vm_compute; reflexivity|].
  exists out. split; [exact Hout | exact Hlen].
Defined.

(** The function returns a list exactly when the benchmark run-up is
    computed: nothing inside the loop can make it raise. *)
Lemma screen_returns_iff (w : World) (tickers : list Candidate) :
  (exists out, snd (screen_stocks_for_opportunities w tickers) = Ok out) <->
  (exists spy, spy_runup w = Ok spy).
Proof.
  split.
  - intros (out & H). apply screen_Ok_inv in H as (spy & H & _). eauto.
  - intros (spy & H). rewrite (screen_returns w spy tickers H). simpl. eauto.
Qed.

Example screen_without_benchmark :
  snd (screen_stocks_for_opportunities Demo.world_no_benchmark []) = Err IndexError.
Proof. reflexivity. Qed.

(* ------------------------------------------------------------------ *)
(** * The ranking order *)

Lemma accepted_results_app (w : World) (spy : Q) (l1 l2 : list Candidate) :
  accepted_results w spy (l1 ++ l2)
  = accepted_results w spy l1 ++ accepted_results w spy l2.
Proof. unfold accepted_results. apply flat_map_app. Qed.

Lemma accepted_results_cons (w : World) (spy : Q) (c : Candidate)
  (l : list Candidate) :
  accepted_results w spy (c :: l)
  = ticker_results w spy c ++ accepted_results w spy l.
Proof. reflexivity. Qed.







(* ------------------------------------------------------------------ *)
(** * One ticker failing *)

Lemma ticker_results_Raise (w : World) (spy : Q) (c : Candidate) (e : exn) :
  analyze_ticker w spy c = Raise e -> ticker_results w spy c = [].
Proof. intros H. unfold ticker_results. now rewrite H. Qed.


Lemma accepted_results_skip (w : World) (spy : Q) (before after : list Candidate)
  (c : Candidate) :
  ticker_results w spy c = [] ->
  accepted_results w spy (before ++ c :: after)
  = accepted_results w spy (before ++ after).
Proof.
  intros H. now rewrite !accepted_results_app, accepted_results_cons, H.
Qed.

(** C6: when the loop body raises for candidate [b], the call still
    returns; the ranking is the one obtained without [b], no result bears
    the symbol of [b], and the log holds one warning naming [b] and the
    exception, between the entries of the candidates before and after. *)
Theorem C6_fault_isolation (w : World) (spy : Q) (before after : list Candidate)
  (b : Candidate) (e : exn) :
  spy_runup w = Ok spy ->
  analyze_ticker w spy b = Raise e ->
  exists out,
    snd (screen_stocks_for_opportunities w (before ++ b :: after)) = Ok out
    /\ snd (screen_stocks_for_opportunities w (before ++ after)) = Ok out
    /\ out = sorted_by_move_score
               (accepted_results w spy before ++ accepted_results w spy after)
    /\ (forall r, In r out -> ticker r <> symbol b)
    /\ fst (screen_stocks_for_opportunities w (before ++ b :: after))
       = InfoScreening (len (before ++ b :: after))
         :: flat_map (ticker_log w spy) before
         ++ WarningCouldNotAnalyze (symbol b) e
         :: flat_map (ticker_log w spy) after.
Proof.
  intros Hspy Hb.
  rewrite !(screen_returns w spy _ Hspy). simpl fst. simpl snd.
  pose proof (ticker_results_Raise _ _ _ _ Hb) as Hnil.
  rewrite (accepted_results_skip w spy before after b Hnil).
  eexists. split; [reflexivity|]. split; [reflexivity|].
  split; [now rewrite accepted_results_app|]. split.
  - intros r Hr Heq.
    apply (Permutation_in _ (sorted_by_move_score_perm _)) in Hr.
    apply accepted_results_In in Hr as (c & _ & f & Hc).
    apply analyze_ticker_Done in Hc as [Hc ->]. simpl in Heq.
    apply analyze_ticker_Raise in Hb. rewrite Heq in Hc. congruence.
  - rewrite flat_map_app. simpl flat_map. unfold ticker_log at 2.
    now rewrite Hb.
Qed.

Lemma C6_fault_isolation_witness :
  exists out,
    snd (screen_stocks_for_opportunities Demo.world
           ([Demo.cand "AAA"] ++ Demo.cand "CCC" :: [Demo.cand "MOV"])) = Ok out
    /\ snd (screen_stocks_for_opportunities Demo.world
              ([Demo.cand "AAA"] ++ [Demo.cand "MOV"])) = Ok out
    /\ map ticker out = ["MOV"; "AAA"]%string.
Proof.
  destruct (C6_fault_isolation Demo.world (200 # 100)
              [Demo.cand "AAA"] [Demo.cand "MOV"] (Demo.cand "CCC")
              (FetchError "HTTP 502"))
    as (out & H1 & H2 & H3 & _); [vm_compute; reflexivity ..|].
  exists out. split; [exact H1|]. split; [exact H2|].
  rewrite H3. vm_compute. reflexivity.
Defined.

(* ------------------------------------------------------------------ *)
(** * The gates *)



Example gate_3_stops_BBB :
  analyze_ticker Demo.world (200 # 100) (Demo.cand "BBB") = Continue G3_market_cap.
Proof. reflexivity. Qed.

Example end_to_end_ranking :
  option_map (map ticker)
    (match snd (screen_stocks_for_opportunities Demo.world
                  [Demo.cand "MOV"; Demo.cand "BBB"]) with
     | Ok out => Some out
     | Err _ => None
     end)
  = Some ["MOV"%string].
Proof. vm_compute. reflexivity. Qed.

(* ------------------------------------------------------------------ *)
(** * The post-earnings move of a window *)






(* ------------------------------------------------------------------ *)
(** * Division by zero *)



Lemma mean_or_zero_nil : mean_or_zero [] = Ok 0.
Proof. reflexivity. Qed.





(* ------------------------------------------------------------------ *)
(** * Empty sets of moves and of run-ups *)

Lemma history_moves_without_pre (w : World) (t : string) (dates : list Z) :
  forall post pre post' pre' pre0,
    history_moves w t dates post pre = Ok (post', pre') ->
    history_moves (without_pre_windows w) t dates post pre0 = Ok (post', pre0).
Proof.
  induction dates as [|d dates IH]; intros post pre post' pre' pre0 H.
  - inversion H; subst. reflexivity.
  - simpl in H.
    apply rbind_Ok in H as (h & Hh & H). apply fetch_Ok in Hh.
    apply rbind_Ok in H as (m & Hm & H).
    apply rbind_Ok in H as (h' & _ & H).
    apply rbind_Ok in H as (r & _ & H).
    simpl.
    replace (d + 2 - (d - 1) =? 30)%Z with false
      by (symmetry; apply Z.eqb_neq; lia).
    replace (d - (d - 30) =? 30)%Z with true
      by (symmetry; apply Z.eqb_eq; lia).
    rewrite Hh. cbn [fetch rbind]. rewrite Hm. cbn [rbind].
    rewrite pre_runup_empty. cbn [rbind append_if].
    exact (IH _ _ _ _ pre0 H).
Qed.

Lemma Extracted_without_pre_windows (w : World) (spy : Q) (t : string)
  (f : Features) :
  Extracted w spy t f ->
  Extracted (without_pre_windows w) spy t (without_runups f).
Proof.
  intros [].
  apply (Extracted_intro (without_pre_windows w) spy t (without_runups f)
           i market_cap target_price current_price first rest);
    try assumption; try reflexivity.
  exact (history_moves_without_pre w t _ _ _ _ _ [] E_moves).
Qed.

(** C7: once the loop over the earnings dates has run, an empty list of
    post-moves stops the ticker at gate 6, while an empty list of run-ups
    gives an average run-up of 0 and stops nothing: a ticker that is
    accepted stays accepted, with the same score, when all its pre-earnings
    windows are emptied. *)
Theorem C7_empty_moves_reject_empty_runups_do_not (w : World) (spy : Q)
  (t : string) (post pre : list Q) :
  (forall g, (gate_index g <= 5)%nat -> gate_ok w t g) ->
  history_moves w t (get_historical_earnings_from_api w t) [] []
  = Ok (post, pre) ->
  (post = [] -> extract_features w spy t = Continue G6_post_moves)
  /\ (pre = [] -> forall f, extract_features w spy t = Done f ->
                            f_avg_pre_earnings_runup f = 0)
  /\ (forall f, extract_features w spy t = Done f ->
        exists f',
          extract_features (without_pre_windows w) spy t = Done f'
          /\ f_pre_runups f' = []
          /\ f_avg_pre_earnings_runup f' = 0
          /\ f_post_moves f' = f_post_moves f
          /\ features_score f' = features_score f).
Proof.
  intros Hg Hm. split; [|split].
  - intros ->.
    pose proof (Hg G1_symbol ltac:(simpl; lia)) as G1.
    destruct (Hg G2_company_name ltac:(simpl; lia)) as (i & n & Hi & Hn & Hn').
    destruct (Hg G3_market_cap ltac:(simpl; lia)) as (i3 & m & Hi3 & Hc & Hc').
    destruct (Hg G4_target_price ltac:(simpl; lia)) as (i4 & p & Hi4 & Hp & Hp').
    pose proof (Hg G5_earnings_dates ltac:(simpl; lia)) as G5.
    simpl in G1, G5.
    assert (i3 = i) by congruence. assert (i4 = i) by congruence. subst i3 i4.
    apply truthy_str_true in Hn'. apply large_cap_true in Hc'.
    apply truthy_num_true in Hp'. apply empty_false in G5.
    unfold extract_features. rewrite G1, Hi. flow_simpl.
    rewrite Hn. flow_simpl. rewrite Hn'. flow_simpl.
    rewrite Hc. flow_simpl. rewrite Hc'. flow_simpl.
    rewrite Hp. flow_simpl. rewrite Hp'. flow_simpl.
    rewrite G5. flow_simpl. rewrite Hm. reflexivity.
  - intros -> f Hf. apply extract_features_Done in Hf as [].
    rewrite Hm in E_moves. inversion E_moves as [[Hpost Hpre]].
    rewrite <- Hpre, mean_or_zero_nil in E_pre. now inversion E_pre.
  - intros f Hf. apply extract_features_Done in Hf.
    exists (without_runups f). split; [|repeat split].
    now apply Extracted_extract_features, Extracted_without_pre_windows.
Qed.

Lemma C7_empty_moves_reject_empty_runups_do_not_witness :
  exists f',
    extract_features (without_pre_windows Demo.world) (200 # 100) "DDD" = Done f'
    /\ f_pre_runups f' = []
    /\ f_avg_pre_earnings_runup f' = 0.
Proof.
  assert (Hg : forall g, (gate_index g <= 5)%nat -> gate_ok Demo.world "DDD" g).
  { intros g Hg. destruct g; simpl in Hg; try lia; simpl.
    - reflexivity.
    - exists Demo.big, "Alpha Corp"%string. repeat split. discriminate.
    - exists Demo.big, 50000000000%Z. repeat split. lia.
    - exists Demo.big, 110. repeat split. intros H. vm_compute in H. discriminate.
    - vm_compute. discriminate. }
  edestruct (C7_empty_moves_reject_empty_runups_do_not Demo.world (200 # 100)
               "DDD") as (_ & _ & H); [exact Hg | lazy; reflexivity |].
  edestruct H as (f' & H1 & H2 & H3 & _); [lazy; reflexivity|].
  exists f'. split; [exact H1|]. split; [exact H2 | exact H3].
Defined.

Example empty_post_moves_stop_GAP :
  extract_features Demo.world (200 # 100) "GAP" = Continue G6_post_moves.
Proof. reflexivity. Qed.

Example empty_runups_do_not_stop_MOV :
  exists f, extract_features Demo.world (200 # 100) "MOV" = Done f
            /\ f_pre_runups f = [] /\ f_avg_pre_earnings_runup f = 0.
Proof. eexists. split; [vm_compute; reflexivity|]. split; reflexivity. Qed.

(* ------------------------------------------------------------------ *)
(** * Supplying a missing field *)

Lemma Extracted_fields_present (w : World) (spy : Q) (t : string) (f : Features)
  (i : Info) (v : FieldValue) :
  Extracted w spy t f -> ticker_info w t = Fetched i -> ~ absent v i.
Proof.
  intros [] Hi Habs. assert (i0 = i) by congruence. subst i0.
  destruct v; simpl in Habs; congruence.
Qed.

(** C9: a ticker whose [info] lacks a required field is not accepted, so
    supplying the field moves it from rejected to accepted or leaves it
    rejected, never the other way. *)
Theorem C9_supplying_a_field_never_rejects (w : World) (spy : Q) (c : Candidate)
  (i : Info) (v : FieldValue) :
  ticker_info w (symbol c) = Fetched i ->
  absent v i ->
  accepted (analyze_ticker w spy c) = false
  /\ ~ (accepted (analyze_ticker w spy c) = true /\
        accepted (analyze_ticker (with_info w (symbol c) (supply v i)) spy c)
        = false).
Proof.
  intros Hi Habs.
  assert (H : accepted (analyze_ticker w spy c) = false).
  { destruct (analyze_ticker w spy c) as [[r f]|g|e] eqn:E; try reflexivity.
    apply analyze_ticker_Done in E as [E _].
    apply extract_features_Done in E.
    now destruct (Extracted_fields_present _ _ _ _ _ v E Hi). }
  split; [exact H|]. intros [H' _]. congruence.
Qed.

Lemma C9_supplying_a_field_never_rejects_witness :
  accepted (analyze_ticker Demo.world (200 # 100) (Demo.cand "NOT")) = false.
Proof.
  refine (proj1 (C9_supplying_a_field_never_rejects Demo.world (200 # 100)
                   (Demo.cand "NOT") _ (TargetMeanPrice 110) eq_refl eq_refl)).
Defined.

Example supplying_target_accepts_NOT :
  accepted (analyze_ticker
              (with_info Demo.world "NOT"
                 (supply (TargetMeanPrice 110)
                    {| shortName := Some "No Target"%string;
                       marketCap := Some 50000000000%Z;
                       targetMeanPrice := None; currentPrice := Some 100 |}))
              (200 # 100) (Demo.cand "NOT")) = true.
Proof. vm_compute. reflexivity. Qed.

Example supplying_name_leaves_NIL_rejected :
  accepted (analyze_ticker
              (with_info Demo.world "NIL"
                 (supply (ShortName "Nil Inc")
                    {| shortName := None; marketCap := None;
                       targetMeanPrice := None; currentPrice := None |}))
              (200 # 100) (Demo.cand "NIL")) = false.
Proof. vm_compute. reflexivity. Qed.

(* ------------------------------------------------------------------ *)
(** * Further properties of the code *)

(** ** The historical earnings dates *)

Lemma parse_reports_Some (reports : list (option Z)) (dates : list Z) :
  parse_reports reports = Some dates <-> reports = map Some dates.
Proof.
  revert dates. induction reports as [|[d|] reports IH]; intros dates; simpl.
  - split; intros H.
    + inversion H. reflexivity.
    + destruct dates; [reflexivity | discriminate].
  - destruct (parse_reports reports) as [ds|] eqn:E; split; intros H.
    + inversion H; subst. simpl. f_equal. now apply IH.
    + destruct dates as [|d' dates]; [discriminate|]. inversion H; subst.
      pose proof (proj2 (IH dates) eq_refl) as H'. now inversion H'.
    + discriminate.
    + destruct dates as [|d' dates]; [discriminate|]. inversion H; subst.
      pose proof (proj2 (IH dates) eq_refl) as H'. discriminate.
  - split; [discriminate|]. destruct dates; discriminate.
Qed.

Lemma parse_reports_None (reports : list (option Z)) :
  parse_reports reports = None <-> In None reports.
Proof.
  induction reports as [|[d|] reports IH]; simpl.
  - split; [discriminate | tauto].
  - destruct (parse_reports reports) as [ds|]; split.
    + discriminate.
    + intros [H|H]; [discriminate|]. now apply IH in H.
    + intros _. right. now apply IH.
    + reflexivity.
  - split; auto.
Qed.

(** X1: [get_historical_earnings_from_api] returns at most eight dates,
    and when it returns any they are the dates of the first eight reports
    of the payload (all of them when there are fewer), in payload order. *)
Theorem X1_historical_dates_are_the_first_eight (w : World) (t : string) :
  (List.length (get_historical_earnings_from_api w t) <= 8)%nat
  /\ (get_historical_earnings_from_api w t <> [] ->
      exists reports,
        earnings_json w t = Fetched (Some reports) /\
        map Some (get_historical_earnings_from_api w t) = firstn 8 reports).
Proof.
  unfold get_historical_earnings_from_api.
  destruct (earnings_json w t) as [[reports|]|msg];
    try (split; [simpl; lia | congruence]).
  destruct (parse_reports (firstn 8 reports)) as [dates|] eqn:E;
    [|split; [simpl; lia | congruence]].
  apply parse_reports_Some in E. split.
  - rewrite <- (length_map Some dates), <- E. apply firstn_le_length.
  - intros _. exists reports. auto.
Qed.

Lemma historical_dates_length (w : World) (t : string) :
  (List.length (get_historical_earnings_from_api w t) <= 8)%nat.
Proof.
  unfold get_historical_earnings_from_api.
  destruct (earnings_json w t) as [[reports|]|msg]; try (simpl; lia).
  destruct (parse_reports (firstn 8 reports)) as [dates|] eqn:E;
    [|simpl; lia].
  apply parse_reports_Some in E.
  rewrite <- (length_map Some dates), <- E. apply firstn_le_length.
Qed.

Lemma firstn_nil_inv {A : Type} (n : nat) (l : list A) :
  firstn (S n) l = [] -> l = [].
Proof. destruct l; simpl; congruence. Qed.

(** X2: [get_historical_earnings_from_api] returns the empty list exactly
    when the request or the decoding fails, the key ['quarterlyEarnings']
    is missing, its list is empty, or one of the first eight reports has a
    date that does not parse; in each of these cases the screen does not
    accept the ticker. *)
Theorem X2_no_usable_history_rejects (w : World) (t : string) :
  (get_historical_earnings_from_api w t = [] <-> no_usable_history w t)
  /\ (no_usable_history w t ->
      forall spy, accepted (extract_features w spy t) = false).
Proof.
  assert (Hiff : get_historical_earnings_from_api w t = []
                 <-> no_usable_history w t).
  { unfold get_historical_earnings_from_api, no_usable_history.
    destruct (earnings_json w t) as [[reports|]|msg] eqn:E.
    - destruct (parse_reports (firstn 8 reports)) as [dates|] eqn:Ep; split.
      + intros ->. apply parse_reports_Some in Ep. cbn [map] in Ep.
        apply firstn_nil_inv in Ep. subst. auto.
      + intros [(m & H)|[H|[H|(r & H & Hin)]]]; try discriminate.
        * inversion H; subst. simpl in Ep. now inversion Ep.
        * inversion H; subst. apply parse_reports_None in Hin. congruence.
      + intros _. right. right. right. exists reports. split; [reflexivity|].
        now apply parse_reports_None.
      + reflexivity.
    - split; auto.
    - split; eauto. }
  split; [exact Hiff|].
  intros H spy. apply Hiff in H.
  destruct (extract_features w spy t) as [f|g|e] eqn:E; try reflexivity.
  apply extract_features_Done in E as []. contradiction.
Qed.

(* ------------------------------------------------------------------ *)
(** * The loop over the earnings dates, further *)

Lemma append_if_length {A : Type} (xs : list A) (x : option A) :
  (List.length xs <= List.length (append_if xs x) <= S (List.length xs))%nat.
Proof. destruct x; simpl; [rewrite length_app; simpl|]; lia. Qed.

Lemma history_moves_lengths (w : World) (t : string) (dates : list Z) :
  forall post pre post' pre',
    history_moves w t dates post pre = Ok (post', pre') ->
    (List.length post' <= List.length post + List.length dates)%nat /\
    (List.length pre' <= List.length pre + List.length dates)%nat.
Proof.
  induction dates as [|d dates IH]; intros post pre post' pre' H.
  - inversion H; subst. simpl. lia.
  - simpl in H.
    apply rbind_Ok in H as (h & _ & H).
    apply rbind_Ok in H as (m & _ & H).
    apply rbind_Ok in H as (h' & _ & H).
    apply rbind_Ok in H as (r & _ & H).
    apply IH in H as [H1 H2].
    pose proof (append_if_length post m). pose proof (append_if_length pre r).
    simpl. lia.
Qed.

(** X3: each historical earnings date adds at most one post-earnings move
    and at most one run-up, so an accepted ticker has between one and
    eight post-moves and at most eight run-ups. *)
Theorem X3_at_most_eight_moves (w : World) (spy : Q) (t : string) (f : Features) :
  extract_features w spy t = Done f ->
  (1 <= List.length (f_post_moves f) <= 8)%nat
  /\ (List.length (f_pre_runups f) <= 8)%nat
  /\ (List.length (f_post_moves f)
      <= List.length (get_historical_earnings_from_api w t))%nat
  /\ (List.length (f_pre_runups f)
      <= List.length (get_historical_earnings_from_api w t))%nat.
Proof.
  intros H. apply extract_features_Done in H as [].
  apply history_moves_lengths in E_moves as [H1 H2]. simpl in H1, H2.
  pose proof (historical_dates_length w t) as H8.
  destruct (f_post_moves f) as [|m ms] eqn:Ep; [congruence|].
  simpl in *. lia.
Qed.





(* ------------------------------------------------------------------ *)
(** * Rounding to two decimals *)

Ltac compare_facts :=
  repeat match goal with
    | H : Qcompare _ _ = Eq |- _ => apply Qeq_alt in H
    | H : Qcompare _ _ = Lt |- _ => apply Qlt_alt in H
    | H : Qcompare _ _ = Gt |- _ => apply Qgt_alt in H
    end.


Lemma round_half_even_mono (x y : Q) :
  x <= y -> (round_half_even x <= round_half_even y)%Z.
Proof.
  intros Hxy.
  pose proof (Qfloor_resp_le _ _ Hxy) as Hf.
  assert (Hx : (round_half_even x <= Qfloor x + 1)%Z).
  { unfold round_half_even.
    destruct (Qcompare (x - inject_Z (Qfloor x)) (1 # 2));
      [destruct (Z.even (Qfloor x))| |]; lia. }
  assert (Hy : (Qfloor y <= round_half_even y)%Z).
  { unfold round_half_even.
    destruct (Qcompare (y - inject_Z (Qfloor y)) (1 # 2));
      [destruct (Z.even (Qfloor y))| |]; lia. }
  destruct (Z.eq_dec (Qfloor x) (Qfloor y)) as [Heq|Hne]; [|lia].
  unfold round_half_even. rewrite <- Heq.
  destruct (Qcompare (x - inject_Z (Qfloor x)) (1 # 2)) eqn:Ex;
    destruct (Qcompare (y - inject_Z (Qfloor x)) (1 # 2)) eqn:Ey;
    try (destruct (Z.even (Qfloor x))); try lia; exfalso;
    compare_facts; lra.
Qed.

Lemma round2_value (x : Q) :
  round2 x == inject_Z (round_half_even (x * 100)) / 100.
Proof. unfold round2. apply Qred_correct. Qed.


Lemma round2_mono (x y : Q) : x <= y -> round2 x <= round2 y.
Proof.
  intros H. rewrite !round2_value.
  assert (H100 : x * 100 <= y * 100) by lra.
  apply round_half_even_mono in H100.
  assert (Hz : inject_Z (round_half_even (x * 100))
               <= inject_Z (round_half_even (y * 100))).
  { rewrite <- Zle_Qle. exact H100. }
  apply Qmult_le_r with (z := 100); [reflexivity|]. field_simplify. lra.
Qed.


(* ------------------------------------------------------------------ *)
(** * Ranges of the features *)

Lemma fold_right_Qabs_nonneg (xs : list Q) :
  0 <= fold_right Qplus 0 (map Qabs xs).
Proof.
  induction xs as [|x xs IH]; simpl; [apply Qle_refl|].
  pose proof (Qabs_nonneg x). lra.
Qed.

Lemma len_pos {A : Type} (xs : list A) : xs <> [] -> 0 < inject_Z (len xs).
Proof.
  intros H. destruct xs as [|x xs]; [congruence|].
  unfold len. simpl List.length. rewrite Nat2Z.inj_succ.
  change 0 with (inject_Z 0). rewrite <- Zlt_Qlt. lia.
Qed.

Lemma count_positive_range (xs : list Q) :
  0 <= inject_Z (count_positive xs) <= inject_Z (len xs).
Proof.
  unfold count_positive, len.
  pose proof (filter_length_le (fun m => negb (Qle_bool m 0)) xs) as H.
  split.
  - change 0 with (inject_Z 0). rewrite <- Zle_Qle. lia.
  - rewrite <- Zle_Qle. lia.
Qed.

(** X6: for an accepted ticker the win rate lies between 0 and 100, and
    the average absolute move and the relative run-up are not negative;
    the same holds of the rounded win rate and average move that the
    result stores. *)
Theorem X6_feature_ranges (w : World) (spy : Q) (c : Candidate)
  (r : ScreeningResult) (f : Features) :
  analyze_ticker w spy c = Done (r, f) ->
  (0 <= f_win_rate f <= 100)
  /\ 0 <= f_avg_abs_move f
  /\ 0 <= f_relative_runup f
  /\ (0 <= win_rate r <= 100)
  /\ 0 <= avg_move r.
Proof.
  intros H. apply analyze_ticker_Done in H as [H ->].
  apply extract_features_Done in H as [].
  pose proof (len_pos _ E_post) as Hlen.
  pose proof (count_positive_range (f_post_moves f)) as [Hc0 Hc1].
  assert (Hwin : 0 <= f_win_rate f <= 100).
  { rewrite E_win. split.
    - apply Qmult_le_0_compat; [|discriminate].
      apply Qle_shift_div_l; [assumption | lra].
    - assert (Hs : inject_Z (count_positive (f_post_moves f))
                   / inject_Z (len (f_post_moves f)) <= 1).
      { apply Qle_shift_div_r; [assumption | lra]. }
      lra. }
  assert (Havg : 0 <= f_avg_abs_move f).
  { rewrite E_avg, sum_fold_right.
    apply Qle_shift_div_l; [assumption|].
    pose proof (fold_right_Qabs_nonneg (f_post_moves f)). lra. }
  split; [exact Hwin|]. split; [exact Havg|]. split.
  { rewrite E_relative. apply Qabs_nonneg. }
  simpl win_rate. simpl avg_move. destruct Hwin as [Hw0 Hw1].
  split; [split|].
  - change 0 with (round2 0). now apply round2_mono.
  - change 100 with (round2 100). now apply round2_mono.
  - change 0 with (round2 0). now apply round2_mono.
Qed.

(* ------------------------------------------------------------------ *)
(** * When the call raises *)



(* ------------------------------------------------------------------ *)
(** * What the log says *)

Lemma qualified_tickers_app (l1 l2 : list LogEntry) :
  qualified_tickers (l1 ++ l2) = qualified_tickers l1 ++ qualified_tickers l2.
Proof. apply flat_map_app. Qed.

Lemma warned_tickers_app (l1 l2 : list LogEntry) :
  warned_tickers (l1 ++ l2) = warned_tickers l1 ++ warned_tickers l2.
Proof. apply flat_map_app. Qed.

Lemma loop_log_account (w : World) (spy : Q) (tickers : list Candidate) :
  qualified_tickers (flat_map (ticker_log w spy) tickers)
  = map ticker (accepted_results w spy tickers)
  /\ warned_tickers (flat_map (ticker_log w spy) tickers)
     = map symbol (filter (raises w spy) tickers)
  /\ List.length (flat_map (ticker_log w spy) tickers)
     = (List.length (accepted_results w spy tickers)
        + List.length (filter (raises w spy) tickers))%nat.
Proof.
  unfold accepted_results.
  induction tickers as [|c tickers (IH1 & IH2 & IH3)]; [repeat split|].
  cbn [flat_map filter].
  rewrite qualified_tickers_app, warned_tickers_app, map_app, !length_app.
  rewrite IH1, IH2, IH3.
  unfold ticker_log, ticker_results, raises.
  destruct (analyze_ticker w spy c) as [[r f]|g|e]; simpl; repeat split; lia.
Qed.

(** X8: in the log of a call that returns, the QUALIFIED entries name the
    accepted tickers once each in candidate order, the warnings name the
    candidates whose analysis raised, in candidate order, and there is no
    other entry after the first: a candidate stopped at a gate leaves no
    trace. *)
Theorem X8_log_accounts_for_every_candidate (w : World) (spy : Q)
  (tickers : list Candidate) :
  spy_runup w = Ok spy ->
  let log := fst (screen_stocks_for_opportunities w tickers) in
  qualified_tickers log = map ticker (accepted_results w spy tickers)
  /\ warned_tickers log = map symbol (filter (raises w spy) tickers)
  /\ List.length log
     = (1 + List.length (accepted_results w spy tickers)
        + List.length (filter (raises w spy) tickers))%nat
  /\ (forall out, snd (screen_stocks_for_opportunities w tickers) = Ok out ->
                  Permutation (qualified_tickers log) (map ticker out)).
Proof.
  intros Hspy. rewrite (screen_returns w spy tickers Hspy). cbn [fst snd].
  destruct (loop_log_account w spy tickers) as (H1 & H2 & H3).
  cbn zeta. split; [exact H1|]. split; [exact H2|]. split.
  - simpl List.length. rewrite H3. lia.
  - intros out Hout. inversion Hout; subst.
    change (qualified_tickers
              (InfoScreening (len tickers) :: flat_map (ticker_log w spy) tickers))
      with (qualified_tickers (flat_map (ticker_log w spy) tickers)).
    rewrite H1. apply Permutation_map. symmetry.
    apply sorted_by_move_score_perm.
Qed.

(* ------------------------------------------------------------------ *)
(** * Falsy values and the symbol gate *)

(** X9: a key of [stock.info] that is present but falsy (an empty name, a
    market cap of 0, a target or current price of 0) counts as missing:
    the ticker is not accepted. *)
Theorem X9_falsy_fields_count_as_missing (w : World) (spy : Q) (t : string)
  (i : Info) :
  ticker_info w t = Fetched i ->
  falsy_field i ->
  accepted (extract_features w spy t) = false.
Proof.
  intros Hi Hf.
  destruct (extract_features w spy t) as [f|g|e] eqn:E; try reflexivity.
  apply extract_features_Done in E as [].
  assert (i0 = i) by congruence. subst i0.
  destruct Hf as [H|[H|[(p & H & Hz)|(p & H & Hz)]]].
  - rewrite H in E_name. inversion E_name. congruence.
  - rewrite H in E_cap. inversion E_cap. lia.
  - rewrite H in E_target. inversion E_target. subst. contradiction.
  - rewrite H in E_current. inversion E_current. subst. contradiction.
Qed.

(** X10: a symbol is stopped at the first gate, whatever the providers
    would return for it, exactly when it does not match the pattern; the
    pattern matches one to five capital letters A-Z, and the same followed
    by one final newline, nothing else. *)
Theorem X10_symbol_gate (w : World) (spy : Q) (t : string) :
  (extract_features w spy t = Continue G1_symbol <-> re_match_symbol t = false)
  /\ (re_match_symbol t = true <->
      one_to_five_upper t = true \/
      exists u, t = (u ++ String "010" EmptyString)%string /\
                one_to_five_upper u = true).
Proof.
  split; [|apply re_match_symbol_spec]. split.
  - intros H. apply extract_features_Continue in H as [H _]. simpl in H.
    destruct (re_match_symbol t); congruence.
  - intros H. unfold extract_features. rewrite H. reflexivity.
Qed.

(* ------------------------------------------------------------------ *)
(** * Ranking batches *)








(* ------------------------------------------------------------------ *)
(** * The further properties on the concrete markets *)

Example bad_date_loses_the_history :
  get_historical_earnings_from_api Cases.world_bad_date "AAA" = []
  /\ extract_features Cases.world_bad_date (200 # 100) "AAA"
     = Continue G5_earnings_dates
  /\ get_historical_earnings_from_api Cases.world_bad_date "DDD"
     = [100; 200; 300; 400; 100; 200; 300; 400]%Z.
Proof. repeat split. Qed.

Lemma X3_at_most_eight_moves_witness :
  exists f,
    extract_features Demo.world (200 # 100) "AAA" = Done f
    /\ (1 <= List.length (f_post_moves f) <= 8)%nat.
Proof.
  eexists. split; [vm_compute; reflexivity|].
  eapply (X3_at_most_eight_moves Demo.world (200 # 100) "AAA").
  vm_compute. reflexivity.
Defined.



Lemma X6_feature_ranges_witness :
  exists r f,
    analyze_ticker Demo.world (200 # 100) (Demo.cand "AAA") = Done (r, f)
    /\ 0 <= win_rate r <= 100.
Proof.
  eexists. eexists. split; [vm_compute; reflexivity|].
  eapply (X6_feature_ranges Demo.world (200 # 100) (Demo.cand "AAA")).
  vm_compute. reflexivity.
Defined.

Example benchmark_failures :
  snd (screen_stocks_for_opportunities Demo.world_no_benchmark Demo.candidates)
  = Err IndexError
  /\ snd (screen_stocks_for_opportunities Demo.world_zero_benchmark [])
     = Err ZeroDivisionError.
Proof. split; reflexivity. Qed.

Lemma X8_log_accounts_for_every_candidate_witness :
  qualified_tickers
    (fst (screen_stocks_for_opportunities Demo.world Demo.candidates))
  = ["AAA"; "DDD"; "MOV"]%string
  /\ warned_tickers
       (fst (screen_stocks_for_opportunities Demo.world Demo.candidates))
     = ["CCC"]%string.
Proof.
  destruct (X8_log_accounts_for_every_candidate Demo.world (200 # 100)
              Demo.candidates eq_refl) as (H1 & H2 & _).
  split; [rewrite H1 | rewrite H2]; vm_compute; reflexivity.
Defined.

Lemma X9_falsy_fields_count_as_missing_witness :
  accepted (extract_features Cases.world_zero_target (200 # 100) "AAA") = false.
Proof.
  apply (X9_falsy_fields_count_as_missing Cases.world_zero_target (200 # 100)
           "AAA" Cases.zero_target eq_refl).
  right. right. left. exists 0. split; reflexivity.
Defined.



(* ------------------------------------------------------------------ *)
(** * [setup_environment] *)

Import Script.

Lemma truthy_key_true (k : option string) :
  truthy_key k = true <-> exists s, k = Some s /\ s <> EmptyString.
Proof.
  destruct k as [s|]; simpl.
  - rewrite truthy_str_true. split; [eauto|]. intros (s' & H & Hs).
    now inversion H; subst.
  - split; [discriminate|]. intros (s & H & _). discriminate.
Qed.

(** X13: [setup_environment] returns [True] exactly when [config.ini]
    exists and is read, the four keys are present and not empty,
    [genai.configure] accepts the Google key and the spaCy model loads;
    the globals then hold exactly the four configured values and the
    model. *)
Theorem X13_setup_succeeds_only_with_all_keys (h : Host) (g g' : Globals) :
  setup_environment h g = (Returns true, g') <->
  config_exists h = true
  /\ config_read h = Fetched tt
  /\ spacy_load h = Loaded
  /\ exists google alpha token repo,
       config_get h "API_KEYS" "GOOGLE_API_KEY" = Fetched (Some google)
       /\ config_get h "API_KEYS" "ALPHA_VANTAGE_API_KEY" = Fetched (Some alpha)
       /\ config_get h "GITHUB" "TOKEN" = Fetched (Some token)
       /\ config_get h "GITHUB" "REPO_NAME" = Fetched (Some repo)
       /\ google <> EmptyString /\ alpha <> EmptyString
       /\ token <> EmptyString /\ repo <> EmptyString
       /\ genai_configure h google = Fetched tt
       /\ g' = {| GOOGLE_API_KEY := Some google;
                  ALPHA_VANTAGE_API_KEY := Some alpha;
                  GITHUB_TOKEN := Some token;
                  GITHUB_REPO := Some repo;
                  NLP_MODEL := Some "en_core_web_sm"%string |}.
Proof.
  split.
  - unfold setup_environment.
    destruct (config_exists h); cbn [negb]; [|discriminate].
    destruct (config_read h) as [[]|?]; [|discriminate].
    destruct (config_get h "API_KEYS" "GOOGLE_API_KEY") as [google|?];
      [|discriminate].
    destruct (config_get h "API_KEYS" "ALPHA_VANTAGE_API_KEY") as [alpha|?];
      [|discriminate].
    destruct (config_get h "GITHUB" "TOKEN") as [token|?]; [|discriminate].
    destruct (config_get h "GITHUB" "REPO_NAME") as [repo|?]; [|discriminate].
    destruct (forallb truthy_key [google; alpha; token; repo]) eqn:Ek;
      cbn [negb]; [|discriminate].
    simpl in Ek. rewrite !andb_true_iff in Ek.
    destruct Ek as (K1 & K2 & K3 & K4 & _).
    apply truthy_key_true in K1 as (k1 & -> & N1).
    apply truthy_key_true in K2 as (k2 & -> & N2).
    apply truthy_key_true in K3 as (k3 & -> & N3).
    apply truthy_key_true in K4 as (k4 & -> & N4).
    cbn [key_value].
    destruct (genai_configure h k1) as [[]|?] eqn:Eg; [|discriminate].
    destruct (spacy_load h) eqn:El; try discriminate.
    intros H. inversion H; subst.
    split; [reflexivity|]. split; [reflexivity|]. split; [reflexivity|].
    exists k1, k2, k3, k4. repeat split; assumption.
  - intros (He & Hr & Hl & google & alpha & token & repo
            & H1 & H2 & H3 & H4 & N1 & N2 & N3 & N4 & Hg & ->).
    unfold setup_environment.
    rewrite He, Hr, H1, H2, H3, H4. cbn [negb forallb truthy_key].
    apply truthy_str_true in N1, N2, N3, N4. rewrite N1, N2, N3, N4.
    cbn [andb negb key_value]. now rewrite Hg, Hl.
Qed.

Example setup_of_the_desk :
  setup_environment Desk.host initial_globals = (Returns true, Desk.ready).
Proof. reflexivity. Qed.

(* ------------------------------------------------------------------ *)
(** * [get_upcoming_earnings_from_api] *)

Lemma upcoming_of_row_In (h : Host) (row : CsvRow) (u : Upcoming) :
  In u (upcoming_of_row h row) <-> entry_of_row h row u.
Proof.
  unfold upcoming_of_row, entry_of_row.
  destruct (getitem row "reportDate") as [[text|]|] eqn:Ed.
  - destruct (strptime h text) as [d|] eqn:Ep.
    + destruct ((today h <=? d)%Z && (d <=? today h + 14)%Z) eqn:Ew.
      * apply andb_true_iff in Ew as [E1 E2].
        apply Z.leb_le in E1, E2.
        destruct (getitem row "symbol") as [sym|] eqn:Es; simpl; split.
        -- intros [<-|[]]. exists text, d. simpl. auto.
        -- intros (text' & d' & Ht & Hd & _ & Hs & Hr).
           inversion Ht; subst. rewrite Ep in Hd. inversion Hd; subst.
           inversion Hs. left. destruct u; simpl in *. now subst.
        -- tauto.
        -- intros (text' & d' & _ & _ & _ & Hs & _). discriminate.
      * simpl. split; [tauto|].
        intros (text' & d' & Ht & Hd & Hw & _).
        inversion Ht; subst. rewrite Ep in Hd. inversion Hd; subst.
        apply andb_false_iff in Ew as [E|E]; apply Z.leb_gt in E; lia.
    + simpl. split; [tauto|].
      intros (text' & d' & Ht & Hd & _). inversion Ht; subst. congruence.
  - simpl. split; [tauto|]. intros (text' & d' & Ht & _). discriminate.
  - simpl. split; [tauto|]. intros (text' & d' & Ht & _). discriminate.
Qed.

Lemma upcoming_of_row_short (h : Host) (row : CsvRow) :
  (List.length (upcoming_of_row h row) <= 1)%nat.
Proof.
  unfold upcoming_of_row.
  destruct (getitem row "reportDate") as [[text|]|]; simpl; try lia.
  destruct (strptime h text) as [d|]; simpl; try lia.
  destruct ((today h <=? d)%Z && (d <=? today h + 14)%Z); simpl; try lia.
  destruct (getitem row "symbol"); simpl; lia.
Qed.

Lemma flat_map_rows_kept (h : Host) (rows : list CsvRow) :
  exists kept,
    Subseq kept rows /\
    Forall2 (entry_of_row h) kept (flat_map (upcoming_of_row h) rows).
Proof.
  induction rows as [|row rows (kept & Hs & Hf)]; simpl.
  - exists []. split; constructor.
  - pose proof (upcoming_of_row_short h row) as Hlen.
    destruct (upcoming_of_row h row) as [|u [|u' l]] eqn:E; simpl in Hlen;
      try lia; simpl.
    + exists kept. split; [now constructor | assumption].
    + exists (row :: kept). split; [now constructor|].
      constructor; [|assumption].
      apply upcoming_of_row_In. rewrite E. now left.
Qed.

Lemma calendar_read_rows (h : Host) (g : Globals) (rows : list CsvRow) :
  calendar_read h g rows ->
  get_upcoming_earnings_from_api h g = flat_map (upcoming_of_row h) rows.
Proof.
  intros (key & text & Hkey & Hne & Htext & Hprefix & Hrows).
  unfold get_upcoming_earnings_from_api. rewrite Hkey. cbn [truthy_key].
  apply truthy_str_true in Hne. rewrite Hne. cbn [negb key_value].
  now rewrite Htext, Hprefix, Hrows.
Qed.

(** X14: when the key is set, the request succeeds and the reply starts
    with the CSV header, [get_upcoming_earnings_from_api] returns one
    dictionary for each row whose date parses and lies between today and
    today + 14 days, both included, and whose ['symbol'] can be read; the
    dictionaries are in row order, the date written back by [strftime];
    every other row is skipped without effect on the rest. *)
Theorem X14_upcoming_events_within_fourteen_days (h : Host) (g : Globals)
  (rows : list CsvRow) :
  calendar_read h g rows ->
  (exists kept,
     Subseq kept rows /\
     Forall2 (entry_of_row h) kept (get_upcoming_earnings_from_api h g))
  /\ (forall u, In u (get_upcoming_earnings_from_api h g) <->
                exists row, In row rows /\ entry_of_row h row u).
Proof.
  intros Hread. rewrite (calendar_read_rows h g rows Hread).
  split; [apply flat_map_rows_kept|].
  intros u. rewrite in_flat_map.
  split; intros (row & Hin & H); exists row; (split; [assumption|]);
    now apply upcoming_of_row_In.
Qed.

Lemma X14_upcoming_events_within_fourteen_days_witness :
  exists kept,
    Subseq kept Desk.rows /\
    Forall2 (entry_of_row Desk.host) kept
      (get_upcoming_earnings_from_api Desk.host Desk.ready).
Proof.
  refine (proj1 (X14_upcoming_events_within_fourteen_days Desk.host Desk.ready
                   Desk.rows _)).
  exists "av-key"%string, "symbol,name,reportDate,estimate"%string.
  repeat split. discriminate.
Defined.

Example upcoming_window_bounds :
  map u_symbol (get_upcoming_earnings_from_api Desk.host Desk.ready)
  = [Some "MOV"; Some "AAA"; Some "DDD"]%string.
Proof. reflexivity. Qed.

Lemma calendar_unavailable_or_read (h : Host) (g : Globals) :
  calendar_unavailable h g \/ exists rows, calendar_read h g rows.
Proof.
  unfold calendar_unavailable, calendar_read.
  destruct (ALPHA_VANTAGE_API_KEY g) as [key|] eqn:Ek; [|auto].
  destruct key as [|c key'] eqn:Ekey; [auto|]. rewrite <- Ekey in *.
  assert (Hne : key <> EmptyString) by (subst; discriminate).
  destruct (calendar_text h key) as [text|msg] eqn:Et.
  2:{ left. right. right. left. eauto. }
  destruct (String.prefix "symbol,name,reportDate" text) eqn:Ep.
  2:{ left. right. right. right. exists key, text. auto. }
  destruct (csv_DictReader h text) as [rows|msg] eqn:Er.
  - right. exists rows, key, text. auto.
  - left. right. right. right. exists key, text. eauto.
Qed.

Lemma calendar_unavailable_empty (h : Host) (g : Globals) :
  calendar_unavailable h g -> get_upcoming_earnings_from_api h g = [].
Proof.
  unfold calendar_unavailable, get_upcoming_earnings_from_api.
  intros [H|[H|[(key & msg & H & Hf)|(key & text & H & Hf & Hbad)]]];
    rewrite H; cbn [truthy_key truthy_str negb]; try reflexivity.
  - destruct (truthy_str key); cbn [negb key_value]; [|reflexivity].
    now rewrite Hf.
  - destruct (truthy_str key); cbn [negb key_value]; [|reflexivity].
    rewrite Hf. destruct Hbad as [Hp|(msg & Hr)].
    + now rewrite Hp.
    + rewrite Hr. now destruct (String.prefix _ text).
Qed.

(** X15: [get_upcoming_earnings_from_api] never raises, and it returns
    the empty list exactly when the calendar cannot be read (the Alpha
    Vantage key is unset or empty, the request fails, the reply does not
    start with [symbol,name,reportDate], the rows cannot be iterated) or
    no row has a readable symbol and a date within the fourteen days. *)
Theorem X15_no_upcoming_event_iff (h : Host) (g : Globals) :
  get_upcoming_earnings_from_api h g = [] <->
  calendar_unavailable h g
  \/ exists rows, calendar_read h g rows /\
                  forall row u, In row rows -> ~ entry_of_row h row u.
Proof.
  split.
  - intros Hnil.
    destruct (calendar_unavailable_or_read h g) as [H|(rows & H)]; [auto|].
    right. exists rows. split; [assumption|].
    intros row u Hin Hu.
    rewrite (calendar_read_rows h g rows H) in Hnil.
    assert (Hu' : In u (flat_map (upcoming_of_row h) rows)).
    { apply in_flat_map. exists row. split; [assumption|].
      now apply upcoming_of_row_In. }
    now rewrite Hnil in Hu'.
  - intros [H|(rows & H & Hno)]; [now apply calendar_unavailable_empty|].
    rewrite (calendar_read_rows h g rows H).
    destruct (flat_map (upcoming_of_row h) rows) as [|u l] eqn:E;
      [reflexivity|].
    exfalso.
    assert (Hu : In u (flat_map (upcoming_of_row h) rows))
      by (rewrite E; now left).
    apply in_flat_map in Hu as (row & Hin & Hu).
    apply upcoming_of_row_In in Hu. exact (Hno row u Hin Hu).
Qed.

(* ------------------------------------------------------------------ *)
(** * [get_competitor_performance] *)








Example competitor_performance_of_MOV :
  get_competitor_performance Desk.host "MOV"
  = "Competitor Performance (30D): AAA: +4.00%, ZED: +4.00%, SPY: +2.00%"%string.
Proof. vm_compute. reflexivity. Qed.

(* ------------------------------------------------------------------ *)
(** * [get_favorable_entry_price] *)

Lemma entry_price_outcome (h : Host) (n : nat) (ticker : string)
  (screening_data : ScreeningResult) :
  match ticker_info (market h) ticker with
  | Failed msg =>
      get_favorable_entry_price h n ticker screening_data
      = Raises (LibraryError msg)
  | Fetched info =>
      (price_missing h ticker info /\
       get_favorable_entry_price h n ticker screening_data = Raises FormatError)
      \/ (~ price_missing h ticker info /\
          get_favorable_entry_price h n ticker screening_data
          = Returns (ask_entry_price h n))
  end.
Proof.
  unfold get_favorable_entry_price, entry_price_dossier, price_missing.
  destruct (ticker_info (market h) ticker) as [info|msg]; [|reflexivity].
  destruct (currentPrice info) as [c|]; simpl; [|left; auto].
  destruct (fst (moving_averages h ticker)) as [a|]; simpl; [|left; auto].
  destruct (snd (moving_averages h ticker)) as [b|]; simpl; [|left; auto].
  right. split; [|reflexivity]. intros [H|[H|H]]; discriminate.
Qed.

Lemma entry_price_of_accepted (h : Host) (n : nat) (ticker : string)
  (screening_data : ScreeningResult) (spy : Q) (f : Features) :
  extract_features (market h) spy ticker = Done f ->
  (average_missing h ticker /\
   get_favorable_entry_price h n ticker screening_data = Raises FormatError)
  \/ (~ average_missing h ticker /\
      get_favorable_entry_price h n ticker screening_data
      = Returns (ask_entry_price h n)).
Proof.
  intros Hf. apply extract_features_Done in Hf as [].
  pose proof (entry_price_outcome h n ticker screening_data) as H.
  rewrite E_info in H. unfold price_missing, average_missing in *.
  rewrite E_current in H.
  destruct H as [[Hm H]|[Hm H]]; [left | right]; (split; [|exact H]).
  - destruct Hm as [Hm|Hm]; [discriminate | exact Hm].
  - intros Ha. apply Hm. auto.
Qed.


Example entry_price_of_DDD_raises :
  forall n screening_data,
    get_favorable_entry_price Desk.host n "DDD" screening_data
    = Raises FormatError.
Proof. intros n screening_data. reflexivity. Qed.

Example entry_prices_of_three_requests :
  forall screening_data,
    get_favorable_entry_price Desk.host 0 "MOV" screening_data
    = Returns [("entry_price"%string, JNumber 98.5)]
    /\ get_favorable_entry_price Desk.host 1 "MOV" screening_data
       = Returns failed_entry
    /\ get_favorable_entry_price Desk.host 2 "MOV" screening_data
       = Returns failed_entry.
Proof. intros screening_data. repeat split. Qed.

(* ------------------------------------------------------------------ *)
(** * [main] *)

(** Every ranked result bears the symbol of a ticker the screen
    accepted. *)
Lemma ranked_accepted (w : World) (tickers : list Candidate)
  (ranked : list ScreeningResult) (r : ScreeningResult) :
  snd (screen_stocks_for_opportunities w tickers) = Ok ranked ->
  In r ranked ->
  exists spy f, extract_features w spy (ticker r) = Done f.
Proof.
  intros H Hin. apply screen_Ok_inv in H as (spy & _ & ->).
  apply (Permutation_in _ (sorted_by_move_score_perm _)) in Hin.
  apply accepted_results_In in Hin as (c & _ & f & Hc).
  apply analyze_ticker_Done in Hc as [Hc ->]. simpl. eauto.
Qed.

Lemma enrich_accepted (h : Host) (ranked : list ScreeningResult) (n : nat) :
  (forall r, In r ranked ->
             exists spy f, extract_features (market h) spy (ticker r) = Done f) ->
  ((forall r, In r ranked -> ~ average_missing h (ticker r)) /\
   enrich h n ranked = Returns (with_entries h n ranked))
  \/ ((exists r, In r ranked /\ average_missing h (ticker r)) /\
      enrich h n ranked = Raises FormatError).
Proof.
  revert n. induction ranked as [|r ranked IH]; intros n Hacc.
  - left. split; [intros r []|reflexivity].
  - destruct (Hacc r (or_introl eq_refl)) as (spy & f & Hf).
    destruct (entry_price_of_accepted h n (ticker r) r spy f Hf)
      as [[Hm E]|[Hm E]].
    + right. split; [exists r; simpl; auto|]. simpl. now rewrite E.
    + destruct (IH (S n)) as [[Hno En]|[(r' & Hin & Hm') En]].
      * intros r' Hr'. apply Hacc. now right.
      * left. split.
        -- intros r' [<-|Hr']; auto.
        -- simpl. rewrite E. simpl. now rewrite En.
      * right. split; [exists r'; simpl; auto|].
        simpl. rewrite E. simpl. now rewrite En.
Qed.

Lemma with_entries_fst (h : Host) (n : nat) (ranked : list ScreeningResult) :
  map fst (with_entries h n ranked) = ranked.
Proof.
  unfold with_entries. revert n.
  induction ranked as [|r ranked IH]; intros n; simpl; [reflexivity|].
  now rewrite IH.
Qed.

Lemma with_entries_nth (h : Host) (n k : nat) (ranked : list ScreeningResult)
  (r : ScreeningResult) :
  nth_error ranked k = Some r ->
  nth_error (with_entries h n ranked) k = Some (r, ask_entry_price h (n + k)).
Proof.
  unfold with_entries. revert n k.
  induction ranked as [|r' ranked IH]; intros n [|k] H; simpl in *;
    try discriminate.
  - inversion H. now rewrite Nat.add_0_r.
  - rewrite (IH (S n) k H). do 3 f_equal. lia.
Qed.

(** X18: whenever [main] has written [earnings_scan.json], the setup
    succeeded, the file lists the whole ranking in ranking order, the
    k-th stock with the entry drawn from the reply to the k-th request
    (the prompt being the same for every stock), none of the stocks lacks
    a moving average, and [main] then ends with [sys.exit(1)]. *)
Theorem X18_what_main_saves (h : Host) (o : outcome unit) (saved : Saved) :
  main h = (o, Some saved) ->
  o = Exits 1
  /\ lastUpdated saved = now_isoformat h
  /\ exists g ranked,
       setup_environment h initial_globals = (Returns true, g)
       /\ snd (screen_stocks_for_opportunities (market h)
                 (candidates_of (get_upcoming_earnings_from_api h g)))
          = Ok ranked
       /\ ranked <> []
       /\ map fst (topMovers saved) = ranked
       /\ (forall k r, nth_error ranked k = Some r ->
                       nth_error (topMovers saved) k
                       = Some (r, ask_entry_price h k))
       /\ (forall r, In r ranked -> ~ average_missing h (ticker r)).
Proof.
  unfold main.
  destruct (setup_environment h initial_globals) as [[ready| |] g] eqn:Es;
    try discriminate.
  destruct ready; cbn [negb]; [|discriminate].
  destruct (empty (get_upcoming_earnings_from_api h g)); [discriminate|].
  destruct (snd (screen_stocks_for_opportunities (market h)
                   (candidates_of (get_upcoming_earnings_from_api h g))))
    as [ranked|e] eqn:Er; [|discriminate].
  destruct (empty ranked) eqn:Ee; [discriminate|].
  destruct (enrich_accepted h ranked 0
              (fun r Hr => ranked_accepted _ _ _ r Er Hr))
    as [[Hno En]|[_ En]]; rewrite En; [|discriminate].
  destruct (write_json h) as [[]|msg]; [|discriminate].
  cbn [push_to_github truthy_return negb].
  intros H. inversion H; subst. cbn [lastUpdated topMovers].
  split; [reflexivity|]. split; [reflexivity|].
  exists g, ranked. split; [reflexivity|]. split; [exact Er|].
  split; [now destruct ranked|]. split; [apply with_entries_fst|].
  split; [|exact Hno].
  intros k r Hk. exact (with_entries_nth h 0 k ranked r Hk).
Qed.

Lemma X18_what_main_saves_witness :
  exists saved,
    main Desk.host_with_averages = (Exits 1, Some saved)
    /\ lastUpdated saved = "2024-05-01T09:00:00"%string.
Proof.
  eexists. split; [lazy; reflexivity|].
  apply (X18_what_main_saves Desk.host_with_averages (Exits 1)).
  lazy. reflexivity.
Defined.

Example main_saves_the_ranking_with_its_entries :
  exists saved,
    main Desk.host_with_averages = (Exits 1, Some saved)
    /\ map (fun e => (ticker (fst e), snd e)) (topMovers saved)
       = [("MOV"%string, [("entry_price"%string, JNumber 98.5)]);
          ("AAA"%string, failed_entry);
          ("DDD"%string, failed_entry)].
Proof. eexists. split; [lazy; reflexivity | reflexivity]. Qed.

Lemma setup_never_exits (h : Host) (g : Globals) (code : Z) (g' : Globals) :
  setup_environment h g <> (Exits code, g').
Proof.
  unfold setup_environment.
  destruct (config_exists h); cbn [negb]; [|discriminate].
  destruct (config_read h) as [[]|?]; [|discriminate].
  destruct (config_get h "API_KEYS" "GOOGLE_API_KEY") as [google|?];
    [|discriminate].
  destruct (config_get h "API_KEYS" "ALPHA_VANTAGE_API_KEY") as [alpha|?];
    [|discriminate].
  destruct (config_get h "GITHUB" "TOKEN") as [token|?]; [|discriminate].
  destruct (config_get h "GITHUB" "REPO_NAME") as [repo|?]; [|discriminate].
  destruct (negb (forallb truthy_key [google; alpha; token; repo]));
    [discriminate|].
  destruct (genai_configure h (key_value google)) as [[]|?]; [|discriminate].
  destruct (spacy_load h); discriminate.
Qed.

(** X19: [main] never reaches the tweet: [push_to_github] has the body
    [pass] and so returns [None], which [main] takes for a failed push; it
    always ends with [sys.exit(1)] or with an exception, never by
    returning and never with another exit code. *)
Theorem X19_main_never_completes (h : Host) :
  fst (main h) = Exits 1 \/ exists e, fst (main h) = Raises e.
Proof.
  unfold main.
  destruct (setup_environment h initial_globals) as [[ready|e|code] g] eqn:Es.
  2:{ right. simpl. eauto. }
  2:{ exfalso. exact (setup_never_exits h initial_globals code g Es). }
  destruct ready; cbn [negb]; [|left; reflexivity].
  destruct (empty (get_upcoming_earnings_from_api h g)); [left; reflexivity|].
  destruct (snd (screen_stocks_for_opportunities (market h)
                   (candidates_of (get_upcoming_earnings_from_api h g))))
    as [ranked|e] eqn:Er; [|right; simpl; eauto].
  destruct (empty ranked) eqn:Ee; [left; reflexivity|].
  destruct (enrich_accepted h ranked 0
              (fun r Hr => ranked_accepted _ _ _ r Er Hr))
    as [[_ En]|[_ En]]; rewrite En; [|right; simpl; eauto].
  destruct (write_json h) as [[]|msg]; [|right; simpl; eauto].
  cbn [push_to_github truthy_return negb]. left. reflexivity.
Qed.

(** X20: once the setup has succeeded and the screen has ranked some
    stocks, [main] raises the format error, and writes nothing, exactly
    when a ranked stock lacks its 50-day or 200-day average; otherwise it
    writes the file, provided the write itself succeeds. *)
Theorem X20_main_fails_on_a_missing_average (h : Host) (g : Globals)
  (ranked : list ScreeningResult) :
  setup_environment h initial_globals = (Returns true, g) ->
  snd (screen_stocks_for_opportunities (market h)
         (candidates_of (get_upcoming_earnings_from_api h g))) = Ok ranked ->
  ranked <> [] ->
  (main h = (Raises FormatError, None) <->
   exists r, In r ranked /\ average_missing h (ticker r))
  /\ ((forall r, In r ranked -> ~ average_missing h (ticker r)) ->
      write_json h = Fetched tt ->
      main h = (Exits 1,
                Some {| lastUpdated := now_isoformat h;
                        topMovers := with_entries h 0 ranked |})).
Proof.
  intros Hs Hr Hne.
  assert (Hup : empty (get_upcoming_earnings_from_api h g) = false).
  { destruct (get_upcoming_earnings_from_api h g) eqn:Eu; [|reflexivity].
    exfalso. simpl in Hr. apply screen_Ok_inv in Hr as (spy & _ & ->).
    now apply Hne. }
  assert (Hem : empty ranked = false)
    by (destruct ranked; [now elim Hne | reflexivity]).
  unfold main. rewrite Hs. cbn [negb]. rewrite Hup, Hr, Hem.
  destruct (enrich_accepted h ranked 0
              (fun r Hin => ranked_accepted _ _ _ r Hr Hin))
    as [[Hno En]|[Hex En]]; rewrite En.
  - split.
    + split.
      * destruct (write_json h) as [[]|msg]; cbn [push_to_github truthy_return negb];
          discriminate.
      * intros (r & Hin & Hm). exfalso. exact (Hno r Hin Hm).
    + intros _ Hw. rewrite Hw. reflexivity.
  - split; [tauto|]. intros Hno. exfalso.
    destruct Hex as (r & Hin & Hm). exact (Hno r Hin Hm).
Qed.

Lemma X20_main_fails_on_a_missing_average_witness :
  main Desk.host = (Raises FormatError, None).
Proof.
  edestruct (X20_main_fails_on_a_missing_average Desk.host Desk.ready)
    as [[_ H] _]; [reflexivity | lazy; reflexivity | discriminate |].
  apply H. eexists. split; [right; right; left; reflexivity|].
  right. reflexivity.
Defined.

(* ------------------------------------------------------------------ *)
(** * From the calendar to the file *)

Lemma candidates_of_In (upcoming : list Upcoming) (c : Candidate) :
  In c (candidates_of upcoming) ->
  In {| u_symbol := Some (symbol c); u_reportDate := reportDate c |} upcoming.
Proof.
  unfold candidates_of. rewrite in_flat_map. intros ([sym date] & Hin & Hc).
  simpl in Hc. destruct sym as [s|]; [|contradiction].
  destruct Hc as [<-|[]]. exact Hin.
Qed.

(** X21: every stock of [earnings_scan.json] comes from a row of the
    earnings calendar: its ticker is the symbol of the row and matches
    the pattern of the first gate, and its earnings date is the date of
    the row, which lies between today and today + 14 days. *)
Theorem X21_saved_stocks_come_from_the_calendar (h : Host) (o : outcome unit)
  (saved : Saved) :
  main h = (o, Some saved) ->
  exists g rows,
    setup_environment h initial_globals = (Returns true, g)
    /\ calendar_read h g rows
    /\ forall e, In e (topMovers saved) ->
         re_match_symbol (ticker (fst e)) = true
         /\ exists row text d,
              In row rows
              /\ getitem row "symbol" = Some (Some (ticker (fst e)))
              /\ getitem row "reportDate" = Some (Some text)
              /\ strptime h text = Some d
              /\ (today h <= d <= today h + 14)%Z
              /\ earnings_date (fst e) = strftime h d.
Proof.
  unfold main.
  destruct (setup_environment h initial_globals) as [[ready| |] g] eqn:Es;
    try discriminate.
  destruct ready; cbn [negb]; [|discriminate].
  destruct (empty (get_upcoming_earnings_from_api h g)) eqn:Eu; [discriminate|].
  destruct (snd (screen_stocks_for_opportunities (market h)
                   (candidates_of (get_upcoming_earnings_from_api h g))))
    as [ranked|e] eqn:Er; [|discriminate].
  destruct (empty ranked) eqn:Ee; [discriminate|].
  destruct (enrich_accepted h ranked 0
              (fun r Hr => ranked_accepted _ _ _ r Er Hr))
    as [[Hno En]|[_ En]]; rewrite En; [|discriminate].
  destruct (write_json h) as [[]|msg]; [|discriminate].
  cbn [push_to_github truthy_return negb].
  intros H. inversion H; subst. cbn [topMovers].
  destruct (calendar_unavailable_or_read h g) as [Hun|(rows & Hread)].
  { apply calendar_unavailable_empty in Hun. rewrite Hun in Eu. discriminate. }
  exists g, rows. split; [reflexivity|]. split; [assumption|].
  intros e Hin.
  apply (in_map fst) in Hin. rewrite with_entries_fst in Hin.
  apply screen_Ok_inv in Er as (spy & _ & ->).
  apply (Permutation_in _ (sorted_by_move_score_perm _)) in Hin.
  apply accepted_results_In in Hin as (c & Hc & f & Hf).
  apply analyze_ticker_Done in Hf as [Hf ->]. cbn [make_result ticker earnings_date].
  split.
  - apply extract_features_Done in Hf as []. assumption.
  - apply candidates_of_In in Hc.
    rewrite (calendar_read_rows h g rows Hread) in Hc.
    apply in_flat_map in Hc as (row & Hrow & Hu).
    apply upcoming_of_row_In in Hu as (text & d & H1 & H2 & H3 & H4 & H5).
    simpl in H4, H5. exists row, text, d. auto 10.
Qed.

Lemma X21_saved_stocks_come_from_the_calendar_witness :
  exists g rows,
    setup_environment Desk.host_with_averages initial_globals
    = (Returns true, g)
    /\ calendar_read Desk.host_with_averages g rows.
Proof.
  edestruct (X21_saved_stocks_come_from_the_calendar Desk.host_with_averages
               (Exits 1)) as (g & rows & H1 & H2 & _); [lazy; reflexivity|].
  exists g, rows. split; [exact H1 | exact H2].
Defined.
